(** * Yahoo-Finance-Downloader: the loader, the worker and the driver of [main.py]

    A shallow embedding of [src/main.py] and the properties its
    specification states about it.

    What is modelled, and how:
    - the decoded configuration is a Python value as [json.load] builds it
      ([json]); a [dict] is its item list in insertion order;
    - the process state ([world]) is the file system, the log written to
      standard output and the number of calls made to the data provider;
    - a function of the program is a computation in the monad [M]: it ends
      by returning, by raising an exception, or by [sys.exit];
    - the data provider ([yf.Ticker(..).history(..)]) is a parameter of the
      development, as is [str()] on values that are not strings.

    The file system has directories and regular files only (no links, no
    permissions, no limit on the length of a name or on space) and POSIX
    paths. *)

From stdpp Require Import base option list strings gmap fin_maps.
From Stdlib Require Import ZArith Ascii String.

Set Warnings "-register-all".

Local Open Scope string_scope.
Local Open Scope list_scope.

(** ** Python values decoded from JSON *)

(** [json.load] yields [None], [bool], [int], [float], [str], [list] and
    [dict] (with [str] keys).  A float is kept as its 64-bit pattern: the
    program never computes with one. *)
Inductive json : Type :=
| JNull
| JBool (b : bool)
| JInt (z : Z)
| JFloat (bits : Z)
| JStr (s : string)
| JArr (items : list json)
| JObj (fields : list (string * json)).

(** The exceptions the program can meet; all of them derive from
    [Exception].  [ValueError] carries what the message is built from. *)
Inductive value_error : Type :=
| MustBeList
| InvalidItem (item : json)
| EmbeddedNull
| IntegerTooLong.

Inductive exn : Type :=
| TypeError
| KeyError (key : string)
| AttributeError
| ValueError (why : value_error)
| JSONDecodeError
| UnicodeDecodeError
| FileNotFoundError
| IsADirectoryError
| NotADirectoryError
| FileExistsError
| OSError
| RecursionError
| ProviderError (what : string).

(** [isinstance(e, ValueError)]: [JSONDecodeError] and [UnicodeDecodeError]
    are subclasses of [ValueError]. *)
Definition is_ValueError (e : exn) : bool :=
  match e with
  | ValueError _ | JSONDecodeError | UnicodeDecodeError => true
  | _ => false
  end.

(** [isinstance(e, OSError)]. *)
Definition is_OSError (e : exn) : bool :=
  match e with
  | FileNotFoundError | IsADirectoryError | NotADirectoryError
  | FileExistsError | OSError => true
  | _ => false
  end.

(** ** Strings

    A string is its UTF-8 bytes.  The characters the program and the file
    system look at (['.'], ['_'], the path separator and NUL) are ASCII, and
    no byte of a multi-byte UTF-8 sequence is ASCII, so working on bytes
    agrees with Python working on code points. *)

Definition dot : ascii := "."%char.
Definition underscore : ascii := "_"%char.
Definition slash : ascii := "/"%char.
Definition nul : ascii := Ascii.zero.

(** [s.replace(old, new)] for one-character [old] and [new]. *)
Fixpoint str_replace (old new : ascii) (s : string) : string :=
  match s with
  | EmptyString => EmptyString
  | String c rest =>
      String (if Ascii.eqb c old then new else c) (str_replace old new rest)
  end.

(** [c in s] for a character. *)
Fixpoint has_char (c : ascii) (s : string) : bool :=
  match s with
  | EmptyString => false
  | String d rest => Ascii.eqb d c || has_char c rest
  end.

(** [sub in s] for strings: [sub] is a prefix of some suffix of [s]. *)
Fixpoint substring_of (sub s : string) : bool :=
  String.prefix sub s ||
  match s with
  | EmptyString => false
  | String _ rest => substring_of sub rest
  end.

(** [s.split(sep)]: the pieces between the separators, empty ones kept. *)
Fixpoint str_split (sep : ascii) (s : string) : list string :=
  match s with
  | EmptyString => [EmptyString]
  | String c rest =>
      if Ascii.eqb c sep then EmptyString :: str_split sep rest
      else match str_split sep rest with
           | [] => [String c EmptyString]
           | piece :: pieces => String c piece :: pieces
           end
  end.

(** ** Dictionaries and the operators [in] and [[]] *)

Fixpoint dict_get (key : string) (fields : list (string * json)) : option json :=
  match fields with
  | [] => None
  | (k, v) :: rest => if String.eqb k key then Some v else dict_get key rest
  end.

Definition dict_has (key : string) (fields : list (string * json)) : bool :=
  existsb (fun kv => String.eqb (fst kv) key) fields.

(** [key in item] for a [str] key.  On a dict it tests the keys, on a list
    it compares the elements with [==], on a string it is the substring
    test, and on anything else it raises [TypeError]. *)
Definition py_in (key : string) (item : json) : exn + bool :=
  match item with
  | JObj fields => inr (dict_has key fields)
  | JArr items =>
      inr (existsb (fun x => match x with
                             | JStr s => String.eqb s key
                             | _ => false
                             end) items)
  | JStr s => inr (substring_of key s)
  | JNull | JBool _ | JInt _ | JFloat _ => inl TypeError
  end.

(** [item[key]] for a [str] key: only a dict accepts it. *)
Definition py_getitem (item : json) (key : string) : exn + json :=
  match item with
  | JObj fields =>
      match dict_get key fields with
      | Some v => inr v
      | None => inl (KeyError key)
      end
  | _ => inl TypeError
  end.

(** [all(key in item for key in keys)]: stops at the first [False], and
    at the first exception. *)
Fixpoint all_keys_in (keys : list string) (item : json) : exn + bool :=
  match keys with
  | [] => inr true
  | key :: rest =>
      match py_in key item with
      | inl e => inl e
      | inr false => inr false
      | inr true => all_keys_in rest item
      end
  end.

Definition REQUIRED_KEYS : list string := ["ticker"; "start_date"; "end_date"].

(** ** Paths ([pathlib.Path], POSIX flavour) *)

(** A path is its components, and whether it starts at the root. *)
Record Path : Type := { anchored : bool; parts : list string }.

(** [Path(s)]: empty components and ["."] are dropped, [".."] is kept. *)
Definition Path_of (s : string) : Path :=
  {| anchored := String.prefix "/" s;
     parts := List.filter (fun name => negb (String.eqb name "" || String.eqb name "."))
                          (str_split slash s) |}.

(** [p / s]: an absolute right-hand side replaces the left one. *)
Definition Path_div (p : Path) (s : string) : Path :=
  let q := Path_of s in
  if anchored q then q
  else {| anchored := anchored p; parts := parts p ++ parts q |}.

(** [p.parent]: the path without its last component. *)
Definition Path_parent (p : Path) : Path :=
  {| anchored := anchored p; parts := removelast (parts p) |}.

(** ** The data provider's table and the file system *)

(** A [DataFrame] returned by [history]: its rows, each a date and the
    provider's price and volume columns as printed.  [history] always
    returns the provider's columns, so [df.empty] holds exactly when there
    is no row. *)
Record row : Type := { row_date : string; row_cells : list string }.

Definition DataFrame : Type := list row.

Definition empty (df : DataFrame) : bool :=
  match df with
  | [] => true
  | _ :: _ => false
  end.

(** What a regular file holds, as far as the program can tell: a text
    that [json.load] decodes to a value, a text it rejects, bytes that are
    not text, the CSV written from a frame, or a JSON text that
    [json.load] gives up on: an integer of more digits than the
    interpreter converts (a plain [ValueError]), or a nesting too deep for
    the decoder ([RecursionError]). *)
Inductive content : Type :=
| JsonText (v : json)
| BadText
| BadBytes
| CsvText (df : DataFrame)
| LongIntegerText
| DeepText.

Inductive node : Type :=
| Dir
| File (c : content).

(** Locations are absolute: the components from the root.  The working
    directory and the directories above it exist throughout. *)
Record filesystem : Type :=
  { cwd : list string; nodes : gmap (list string) node }.

Definition fs_lookup (fs : filesystem) (loc : list string) : option node :=
  if bool_decide (loc `prefix_of` cwd fs) then Some Dir else nodes fs !! loc.

Definition fs_put (fs : filesystem) (loc : list string) (n : node) : filesystem :=
  {| cwd := cwd fs; nodes := <[loc := n]> (nodes fs) |}.

Definition is_dir (fs : filesystem) (loc : list string) : bool :=
  match fs_lookup fs loc with
  | Some Dir => true
  | _ => false
  end.

Definition is_file (fs : filesystem) (loc : list string) : bool :=
  match fs_lookup fs loc with
  | Some (File _) => true
  | _ => false
  end.

(** The directory holding [loc]. *)
Definition parent (loc : list string) : list string := removelast loc.

(** Follow the components of a path; [".."] steps up from a directory,
    and a NUL in a name is refused ("embedded null byte"). *)
Fixpoint walk (fs : filesystem) (here : list string) (todo : list string)
  : exn + list string :=
  match todo with
  | [] => inr here
  | name :: rest =>
      if has_char nul name then inl (ValueError EmbeddedNull)
      else if String.eqb name ".." then
        match fs_lookup fs here with
        | Some Dir => walk fs (parent here) rest
        | Some (File _) => inl NotADirectoryError
        | None => inl FileNotFoundError
        end
      else walk fs (here ++ [name]) rest
  end.

Definition base_of (fs : filesystem) (p : Path) : list string :=
  if anchored p then [] else cwd fs.

Definition locate (fs : filesystem) (p : Path) : exn + list string :=
  walk fs (base_of fs p) (parts p).

(** [p.exists()]: [False] too when the path cannot be followed. *)
Definition Path_exists (fs : filesystem) (p : Path) : bool :=
  match locate fs p with
  | inr loc => bool_decide (is_Some (fs_lookup fs loc))
  | inl _ => false
  end.

(** [open(p, 'r')] followed by reading the whole file. *)
Definition open_read (fs : filesystem) (p : Path) : exn + content :=
  match locate fs p with
  | inl e => inl e
  | inr loc =>
      match fs_lookup fs loc with
      | None => inl FileNotFoundError
      | Some Dir => inl IsADirectoryError
      | Some (File c) => inr c
      end
  end.

(** [json.load] on what was read.  A CSV written from a non-empty frame
    has a header line with a comma in it, which is not JSON. *)
Definition json_load (c : content) : exn + json :=
  match c with
  | JsonText v => inr v
  | BadText => inl JSONDecodeError
  | BadBytes => inl UnicodeDecodeError
  | CsvText _ => inl JSONDecodeError
  | LongIntegerText => inl (ValueError IntegerTooLong)
  | DeepText => inl RecursionError
  end.

(** [p.mkdir(parents=True, exist_ok=True)]: every missing directory on the
    way is created; a regular file on the way is an [OSError]. *)
Fixpoint mkdir_from (fs : filesystem) (here : list string) (todo : list string)
  : exn + filesystem :=
  match todo with
  | [] => inr fs
  | name :: rest =>
      if has_char nul name then inl (ValueError EmbeddedNull)
      else if String.eqb name ".." then
        match fs_lookup fs here with
        | Some Dir => mkdir_from fs (parent here) rest
        | Some (File _) => inl NotADirectoryError
        | None => inl FileNotFoundError
        end
      else
        let loc := here ++ [name] in
        match fs_lookup fs loc with
        | Some Dir => mkdir_from fs loc rest
        | Some (File _) =>
            inl (match rest with [] => FileExistsError | _ => NotADirectoryError end)
        | None => mkdir_from (fs_put fs loc Dir) loc rest
        end
  end.

Definition Path_mkdir (fs : filesystem) (p : Path) : exn + filesystem :=
  mkdir_from fs (base_of fs p) (parts p).

(** [df.to_csv(p)]: pandas first refuses a path whose parent is not a
    directory ([OSError]), then opens the path for writing, which creates
    the file or empties it, and fails on a directory. *)
Definition to_csv (df : DataFrame) (p : Path) (fs : filesystem)
  : exn + filesystem :=
  match locate fs (Path_parent p) with
  | inl _ => inl OSError
  | inr dloc =>
      if is_dir fs dloc then
        match locate fs p with
        | inl e => inl e
        | inr loc =>
            match fs_lookup fs loc with
            | Some Dir => inl IsADirectoryError
            | _ => inr (fs_put fs loc (File (CsvText df)))
            end
        end
      else inl OSError
  end.

(** ** The process: state, log and control *)

Inductive level : Type := INFO | WARNING | ERROR.

(** A log line is its level and its message; a message is the format
    string of the source together with the values it prints. *)
Inductive message : Type :=
| ConfigNotFound (config_path : Path)
| LoadedRequests (count : nat) (config_path : Path)
| DecodeFailed (config_path : Path)
| InvalidConfiguration (e : exn)
| UnexpectedError (e : exn)
| Fetching (ticker start end_ : json)
| NoDataFound (ticker : json)
| SavedTo (output_path : Path)
| FetchOrSaveFailed (ticker : json) (e : exn)
| OutputDirSet (dir : Path)
| MkdirFailed (dir : Path) (e : exn)
| NoRequests
| AllComplete.

(** [log] is in the order of printing; [calls] counts the provider calls
    made so far. *)
Record world : Type :=
  { fs : filesystem; log : list (level * message); calls : nat }.

(** How a computation ends: it returns a value, raises an exception, or
    leaves through [sys.exit], which no [except Exception] intercepts. *)
Inductive outcome (A : Type) : Type :=
| Returns (a : A)
| Raises (e : exn)
| Exits (code : Z).

Arguments Returns {A} a.
Arguments Raises {A} e.
Arguments Exits {A} code.

Definition M (A : Type) : Type := world -> outcome A * world.

#[export] Instance M_ret : MRet M := fun A a w => (Returns a, w).

#[export] Instance M_bind : MBind M := fun A B k m w =>
  match m w with
  | (Returns a, w') => k a w'
  | (Raises e, w') => (Raises e, w')
  | (Exits code, w') => (Exits code, w')
  end.

Definition raise {A : Type} (e : exn) : M A := fun w => (Raises e, w).

Definition sys_exit {A : Type} (code : Z) : M A := fun w => (Exits code, w).

(** [try: body except Exception as e: handler(e)]. *)
Definition try_except {A : Type} (body : M A) (handler : exn -> M A) : M A :=
  fun w =>
    match body w with
    | (Raises e, w') => handler e w'
    | done => done
    end.

Definition add_log (w : world) (lvl : level) (msg : message) : world :=
  {| fs := fs w; log := log w ++ [(lvl, msg)]; calls := calls w |}.

Definition set_fs (w : world) (fs' : filesystem) : world :=
  {| fs := fs'; log := log w; calls := calls w |}.

Definition count_call (w : world) : world :=
  {| fs := fs w; log := log w; calls := S (calls w) |}.

Definition logging (lvl : level) (msg : message) : M unit :=
  fun w => (Returns (), add_log w lvl msg).

(** Ask the file system a question that has an answer. *)
Definition fs_query {A : Type} (op : filesystem -> A) : M A :=
  fun w => (Returns (op (fs w)), w).

(** Run an operation that reads the file system. *)
Definition fs_read {A : Type} (op : filesystem -> exn + A) : M A :=
  fun w =>
    match op (fs w) with
    | inl e => (Raises e, w)
    | inr a => (Returns a, w)
    end.

(** Run an operation that changes the file system. *)
Definition fs_write (op : filesystem -> exn + filesystem) : M unit :=
  fun w =>
    match op (fs w) with
    | inl e => (Raises e, w)
    | inr fs' => (Returns (), set_fs w fs')
    end.

(** Lift a pure operation that may raise. *)
Definition lift {A : Type} (r : exn + A) : M A :=
  fun w =>
    match r with
    | inl e => (Raises e, w)
    | inr a => (Returns a, w)
    end.

(** [for x in xs: body(x)]. *)
Fixpoint for_each {A : Type} (xs : list A) (body : A -> M unit) : M unit :=
  match xs with
  | [] => mret ()
  | x :: rest => body x;; for_each rest body
  end.

(** The status the operating system sees: an uncaught exception prints a
    traceback and gives status 1. *)
Definition exit_status {A : Type} (o : outcome A) : Z :=
  match o with
  | Returns _ => 0
  | Raises _ => 1
  | Exits code => code
  end.

(** [OUTPUT_DIR = Path("historical_data")]. *)
Definition OUTPUT_DIR : Path := Path_of "historical_data".

(** The default of [--config]. *)
Definition DEFAULT_CONFIG : Path := Path_of "config.json".


(** ** The notions of the specification *)

(** An element that has a given key: an object with that field. *)
Definition has_key (key : string) (item : json) : bool :=
  match item with
  | JObj fields => dict_has key fields
  | _ => false
  end.

(** A fetch request: an object with the three required keys. *)
Definition is_fetch_request (item : json) : bool :=
  forallb (fun key => has_key key item) REQUIRED_KEYS.

(** An item that passes the test of [load_config]. *)
Definition accepted (item : json) : Prop :=
  all_keys_in REQUIRED_KEYS item = inr true.

(** The invariant the specification gives a fetch request: the three
    fields are present and none is the empty string. *)
Definition field_nonempty (item : json) (key : string) : bool :=
  match py_getitem item key with
  | inr (JStr s) => negb (String.eqb s "")
  | inr _ => true
  | inl _ => false
  end.

Definition request_invariant (item : json) : bool :=
  forallb (field_nonempty item) REQUIRED_KEYS.

(** The characters that cannot occur in a POSIX file name: the path
    separator and NUL. *)
Definition filename_invalid (c : ascii) : bool :=
  Ascii.eqb c slash || Ascii.eqb c nul.

(** A string without any of them. *)
Definition plain_name (s : string) : bool :=
  negb (has_char slash s) && negb (has_char nul s).

(** The regular file at a location, if there is one. *)
Definition file_at (fs : filesystem) (loc : list string) : option content :=
  match fs_lookup fs loc with
  | Some (File c) => Some c
  | _ => None
  end.

(** Where [OUTPUT_DIR] lies. *)
Definition output_loc (fs : filesystem) : list string :=
  cwd fs ++ ["historical_data"].

(** The log lines that announce a fetch. *)
Definition is_fetching (line : level * message) : bool :=
  match line with
  | (INFO, Fetching _ _ _) => true
  | _ => false
  end.

(** The line [fetch_and_save_data] prints first for a request. *)
Definition fetching_line (request : json) : option (level * message) :=
  match py_getitem request "ticker", py_getitem request "start_date",
        py_getitem request "end_date" with
  | inr ticker, inr start, inr end_ => Some (INFO, Fetching ticker start end_)
  | _, _, _ => None
  end.

(** ** Sample inputs *)

(** A working directory that holds [config.json] and nothing else. *)
Definition sample_fs (config : content) : filesystem :=
  {| cwd := ["home"; "user"];
     nodes := {[ ["home"; "user"; "config.json"] := File config ]} |}.

Definition sample_world (config : content) : world :=
  {| fs := sample_fs config; log := []; calls := 0 |}.

(** The same with the output directory already made. *)
Definition sample_fs_with_dir (config : content) : filesystem :=
  fs_put (sample_fs config) ["home"; "user"; "historical_data"] Dir.

Definition sample_world_with_dir (config : content) : world :=
  set_fs (sample_world config) (sample_fs_with_dir config).

Definition request_of (ticker start end_ : string) : json :=
  JObj [("ticker", JStr ticker); ("start_date", JStr start); ("end_date", JStr end_)].

Definition sample_rows : DataFrame :=
  [ {| row_date := "2020-01-02"; row_cells := ["74.06"; "75.15"; "73.80"; "75.09"] |} ].

(** A provider whose first call raises and whose later calls return rows. *)
Definition raises_then_rows (n : nat) (ticker start end_ : json) : exn + DataFrame :=
  match n with
  | 0 => inl (ProviderError "no such ticker")
  | S _ => inr sample_rows
  end.

(** A provider that always returns rows, and one that never has any. *)
Definition always_rows (n : nat) (ticker start end_ : json) : exn + DataFrame :=
  inr sample_rows.

Definition never_rows (n : nat) (ticker start end_ : json) : exn + DataFrame :=
  inr [].

(** [str()] for samples in which every printed field is a string, so that
    it is never called. *)
Definition unused_str (v : json) : string := "".

Definition brk_request : json := request_of "BRK.B" "2020-01-01" "2020-12-31".

Definition unknown_request : json := request_of "NOSUCH" "2020-01-01" "2020-12-31".

Definition blank_request : json := request_of "" "" "".

Definition slash_request : json := request_of "BRK/B" "2020-01-01" "2020-12-31".

(** A configuration element that is a string, not an object. *)
Definition string_item : json := JStr "ticker start_date end_date".

(** Where the sample output directory lies, and the file of [brk_request]. *)
Definition sample_output_loc : list string := ["home"; "user"; "historical_data"].

Definition sample_saved_loc : list string :=
  ["home"; "user"; "historical_data"; "BRK_B_2020-01-01_to_2020-12-31.csv"].

(** A working directory in which [config.json] is a directory. *)
Definition sample_fs_config_dir : filesystem :=
  {| cwd := ["home"; "user"];
     nodes := {[ ["home"; "user"; "config.json"] := Dir ]} |}.

Definition sample_world_config_dir : world :=
  {| fs := sample_fs_config_dir; log := []; calls := 0 |}.

(** A working directory in which a regular file is called
    [historical_data]. *)
Definition sample_fs_blocked (config : content) : filesystem :=
  fs_put (sample_fs config) ["home"; "user"; "historical_data"] (File BadText).

Definition sample_world_blocked (config : content) : world :=
  set_fs (sample_world config) (sample_fs_blocked config).

(** An object without [end_date], and a request whose ticker is a number. *)
Definition partial_request : json :=
  JObj [("ticker", JStr "AAPL"); ("start_date", JStr "2020-01-01")].

Definition number_request : json :=
  JObj [("ticker", JInt 42); ("start_date", JStr "2020-01-01");
        ("end_date", JStr "2020-12-31")].

Definition other_rows : DataFrame :=
  [ {| row_date := "2020-01-03"; row_cells := ["74.29"; "75.14"; "74.13"; "74.36"] |} ].

(** A provider that returns [sample_rows] first and [other_rows] afterwards. *)
Definition changing_rows (n : nat) (ticker start end_ : json) : exn + DataFrame :=
  match n with
  | 0 => inr sample_rows
  | S _ => inr other_rows
  end.

(** A request whose dates are written with the path separator. *)
Definition slash_date_request : json := request_of "AAPL" "2020/01/01" "2020/12/31".

(** The output directory with a directory standing where the file of
    [brk_request] goes. *)
Definition sample_fs_dir_at_target (config : content) : filesystem :=
  fs_put (sample_fs_with_dir config) sample_saved_loc Dir.

Definition sample_world_dir_at_target (config : content) : world :=
  set_fs (sample_world config) (sample_fs_dir_at_target config).

(** Projections of a world built by the updaters. *)
Ltac simpl_world :=
  cbn [fs log calls add_log set_fs count_call fst snd] in *.

(** ** The program *)

Section Program.

(** [history n ticker start end_] is what the [n]-th call to the provider
    (counting from 0), [yf.Ticker(ticker).history(start=start, end=end_)],
    does: it raises, or returns a frame. *)
Variable history : nat -> json -> json -> json -> exn + DataFrame.

(** [str(v)] for a value that is not a string. *)
Variable str_other : json -> string.

(** What an f-string prints for [{v}]. *)
Definition py_str (v : json) : string :=
  match v with
  | JStr s => s
  | _ => str_other v
  end.

(** The provider call, counted. *)
Definition fetch (ticker start end_ : json) : M DataFrame :=
  fun w =>
    match history (calls w) ticker start end_ with
    | inl e => (Raises e, count_call w)
    | inr df => (Returns df, count_call w)
    end.

(** [ticker_str.replace(".", "_")]: only a [str] has the method. *)
Definition replace_dots (ticker_str : json) : exn + string :=
  match ticker_str with
  | JStr s => inr (str_replace dot underscore s)
  | _ => inl AttributeError
  end.

(** [f"{safe_ticker_str}_{start}_to_{end}.csv"]. *)
Definition csv_name (safe_ticker_str : string) (start end_ : json) : string :=
  safe_ticker_str ++ "_" ++ py_str start ++ "_to_" ++ py_str end_ ++ ".csv".

(** The loop of [load_config] over the items. *)
Fixpoint check_items (items : list json) : M unit :=
  match items with
  | [] => mret ()
  | item :: rest =>
      ok ← lift (all_keys_in REQUIRED_KEYS item);
      if negb ok then raise (ValueError (InvalidItem item))
      else check_items rest
  end.

Definition load_config (config_path : Path) : M (list json) :=
  found ← fs_query (fun fs => Path_exists fs config_path);
  (if negb found then
     logging ERROR (ConfigNotFound config_path);; sys_exit 1
   else mret ());;
  try_except
    (text ← fs_read (fun fs => open_read fs config_path);
     config_data ← lift (json_load text);
     match config_data with
     | JArr items =>
         check_items items;;
         logging INFO (LoadedRequests (List.length items) config_path);;
         mret items
     | _ => raise (ValueError MustBeList)
     end)
    (fun e =>
       match e with
       | JSONDecodeError =>
           logging ERROR (DecodeFailed config_path);; sys_exit 1
       | _ =>
           if is_ValueError e then
             logging ERROR (InvalidConfiguration e);; sys_exit 1
           else
             logging ERROR (UnexpectedError e);; sys_exit 1
       end).

Definition fetch_and_save_data (ticker_request : json) (output_dir : Path) : M unit :=
  ticker_str ← lift (py_getitem ticker_request "ticker");
  start ← lift (py_getitem ticker_request "start_date");
  end_ ← lift (py_getitem ticker_request "end_date");
  logging INFO (Fetching ticker_str start end_);;
  try_except
    (history_df ← fetch ticker_str start end_;
     if empty history_df then
       logging WARNING (NoDataFound ticker_str)
     else
       safe_ticker_str ← lift (replace_dots ticker_str);
       let filename := csv_name safe_ticker_str start end_ in
       let output_path := Path_div output_dir filename in
       fs_write (to_csv history_df output_path);;
       logging INFO (SavedTo output_path))
    (fun e => logging ERROR (FetchOrSaveFailed ticker_str e)).

(** [main], with [args_config] the value of [args.config]. *)
Definition main (args_config : Path) : M unit :=
  requests ← load_config args_config;
  try_except
    (fs_write (fun fs => Path_mkdir fs OUTPUT_DIR);;
     logging INFO (OutputDirSet OUTPUT_DIR))
    (fun e =>
       if is_OSError e then
         logging ERROR (MkdirFailed OUTPUT_DIR e);; sys_exit 1
       else raise e);;
  match requests with
  | [] => logging WARNING NoRequests
  | _ :: _ =>
      for_each requests (fun request => fetch_and_save_data request OUTPUT_DIR);;
      logging INFO AllComplete
  end.
(** ** Facts about the loader *)

Lemma check_items_accepts (items : list json) (w : world) :
  Forall accepted items -> check_items items w = (Returns (), w).
Proof.
  induction 1 as [|item rest Hitem _ IH]; [reflexivity|].
  cbn [check_items]. unfold mbind, M_bind, lift.
  rewrite Hitem. cbn. exact IH.
Qed.

Lemma check_items_cases (items : list json) (w : world) :
  (Forall accepted items /\ check_items items w = (Returns (), w)) \/
  (exists e, check_items items w = (Raises e, w)).
Proof.
  induction items as [|item rest IH].
  - left. split; [constructor | reflexivity].
  - cbn [check_items]. unfold mbind, M_bind, lift.
    destruct (all_keys_in REQUIRED_KEYS item) as [e|[|]] eqn:E.
    + right. eauto.
    + cbn. destruct IH as [[Hall Hrun]|Hraise].
      * left. split; [constructor; assumption | assumption].
      * right. assumption.
    + right. cbn. eauto.
Qed.

Lemma open_read_exists (fs0 : filesystem) (p : Path) (c : content) :
  open_read fs0 p = inr c -> Path_exists fs0 p = true.
Proof.
  unfold open_read, Path_exists.
  destruct (locate fs0 p) as [e|loc]; [discriminate|].
  destruct (fs_lookup fs0 loc) as [[|c']|]; try discriminate.
  intros _. apply bool_decide_eq_true. eauto.
Qed.

(** The handlers of [load_config] all log one error and leave with
    status 1. *)
Lemma load_config_handler (config_path : Path) (e : exn) (w : world) :
  exists msg,
    (match e with
     | JSONDecodeError => logging ERROR (DecodeFailed config_path);; sys_exit 1
     | _ => if is_ValueError e
            then logging ERROR (InvalidConfiguration e);; sys_exit 1
            else logging ERROR (UnexpectedError e);; sys_exit 1
     end : M (list json)) w = (Exits 1, add_log w ERROR msg).
Proof.
  destruct e; cbn; eauto.
Qed.

(** [load_config] either leaves with status 1 after one error line, or
    returns the decoded list, every item of which passed the test. *)
Lemma load_config_cases (config_path : Path) (w : world) :
  (exists msg, load_config config_path w = (Exits 1, add_log w ERROR msg)) \/
  (exists items,
      open_read (fs w) config_path = inr (JsonText (JArr items)) /\
      Forall accepted items /\
      load_config config_path w =
        (Returns items, add_log w INFO (LoadedRequests (List.length items) config_path))).
Proof.
  unfold load_config, mbind, M_bind, fs_query.
  destruct (Path_exists (fs w) config_path) eqn:Hex; cbn [negb].
  2:{ left. eexists. reflexivity. }
  cbn [mret M_ret].
  unfold try_except, mbind, M_bind, fs_read.
  destruct (open_read (fs w) config_path) as [e|c] eqn:Hopen.
  { left. apply load_config_handler. }
  unfold lift at 1.
  destruct (json_load c) as [e|v] eqn:Hload.
  { left. apply load_config_handler. }
  destruct c; cbn in Hload; try discriminate.
  injection Hload as ->.
  destruct v; try (left; eexists; reflexivity).
  destruct (check_items_cases items w) as [[Hall Hrun]|[e Hrun]];
    cbn; rewrite Hrun.
  - right. exists items. auto.
  - left. apply load_config_handler.
Qed.

Lemma load_config_rejects (config_path : Path) (w : world) :
  Path_exists (fs w) config_path = false \/
  (exists c e, open_read (fs w) config_path = inr c /\ json_load c = inl e) \/
  (exists v, open_read (fs w) config_path = inr (JsonText v) /\
             forall items, v <> JArr items) \/
  (exists items, open_read (fs w) config_path = inr (JsonText (JArr items)) /\
                 Exists (fun item => ~ accepted item) items) ->
  exists msg, load_config config_path w = (Exits 1, add_log w ERROR msg).
Proof.
  intros Hbad.
  destruct (load_config_cases config_path w)
    as [Hexit|(items & Hopen & Hall & _)]; [exact Hexit|].
  exfalso.
  destruct Hbad as [Hmiss|[(c & e & Hc & He)|[(v & Hv & Hnot)|(items' & Hi & Hex)]]].
  - apply open_read_exists in Hopen. congruence.
  - rewrite Hopen in Hc. injection Hc as <-. discriminate.
  - rewrite Hopen in Hv. injection Hv as <-. exact (Hnot items eq_refl).
  - rewrite Hopen in Hi. injection Hi as <-.
    apply Exists_exists in Hex. destruct Hex as (item & Hin & Hno).
    rewrite Forall_forall in Hall. exact (Hno (Hall item Hin)).
Qed.

Lemma dict_has_get (key : string) (fields : list (string * json)) :
  dict_has key fields = true <-> exists v, dict_get key fields = Some v.
Proof.
  induction fields as [|[k v] rest IH]; cbn.
  - split; [discriminate | intros [v Hv]; discriminate].
  - destruct (String.eqb k key); cbn.
    + split; eauto.
    + exact IH.
Qed.

(** On an object, the test of [load_config] is the presence of the three
    keys. *)
Lemma accepted_object (fields : list (string * json)) :
  accepted (JObj fields) <-> is_fetch_request (JObj fields) = true.
Proof.
  unfold accepted, is_fetch_request. cbn.
  destruct (dict_has "ticker" fields), (dict_has "start_date" fields),
    (dict_has "end_date" fields); cbn; split; congruence.
Qed.

Lemma fetch_request_object (item : json) :
  is_fetch_request item = true -> exists fields, item = JObj fields.
Proof.
  destruct item; cbn; try discriminate. eauto.
Qed.

Lemma fetch_request_accepted (item : json) :
  is_fetch_request item = true -> accepted item.
Proof.
  intros H. destruct (fetch_request_object item H) as [fields ->].
  apply accepted_object. exact H.
Qed.

(** An object that lacks a key, and a scalar, never pass the test. *)
Lemma lacking_not_accepted (item : json) :
  is_fetch_request item = false ->
  (forall s, item <> JStr s) -> (forall items, item <> JArr items) ->
  ~ accepted item.
Proof.
  intros Hlack Hstr Harr Hacc.
  destruct item; try (cbv in Hacc; discriminate).
  - exact (Hstr s eq_refl).
  - exact (Harr items eq_refl).
  - apply accepted_object in Hacc. congruence.
Qed.

(** Where the loader does stop the process: the file is missing, is not
    JSON, is not a list, or holds an object that lacks a key or a scalar. *)
Lemma load_config_rejects_lacking (config_path : Path) (w : world) :
  Path_exists (fs w) config_path = false \/
  (exists c e, open_read (fs w) config_path = inr c /\ json_load c = inl e) \/
  (exists v, open_read (fs w) config_path = inr (JsonText v) /\
             forall items, v <> JArr items) \/
  (exists items item,
      open_read (fs w) config_path = inr (JsonText (JArr items)) /\
      In item items /\ is_fetch_request item = false /\
      (forall s, item <> JStr s) /\ (forall l, item <> JArr l)) ->
  exists msg, load_config config_path w = (Exits 1, add_log w ERROR msg).
Proof.
  intros [H|[H|[H|(items & item & Hopen & Hin & Hlack & Hstr & Harr)]]];
    apply load_config_rejects; auto.
  right. right. right. exists items. split; [exact Hopen|].
  apply Exists_exists. exists item.
  split; [apply list_elem_of_In, Hin|].
  apply lacking_not_accepted; assumption.
Qed.

Lemma fetch_request_fields (item : json) (key : string) :
  is_fetch_request item = true -> In key REQUIRED_KEYS ->
  exists v, py_getitem item key = inr v.
Proof.
  intros H Hkey. destruct (fetch_request_object item H) as [fields ->].
  unfold is_fetch_request in H. rewrite forallb_forall in H.
  specialize (H key Hkey). cbn in H.
  apply dict_has_get in H. destruct H as [v Hv].
  exists v. cbn. rewrite Hv. reflexivity.
Qed.

(** ** Facts about the driver *)

Lemma main_load_exits (args_config : Path) (w w' : world) (code : Z) :
  load_config args_config w = (Exits code, w') ->
  main args_config w = (Exits code, w').
Proof.
  intros H. unfold main, mbind, M_bind. rewrite H. reflexivity.
Qed.

(** ** Facts about strings and paths *)

Lemma has_char_app (c : ascii) (s1 s2 : string) :
  has_char c (s1 ++ s2) = has_char c s1 || has_char c s2.
Proof.
  induction s1 as [|d s1 IH]; [reflexivity|].
  change (String d s1 ++ s2)%string with (String d (s1 ++ s2)%string).
  cbn [has_char]. rewrite IH. apply orb_assoc.
Qed.

Lemma str_replace_removes (old new : ascii) (s : string) :
  old <> new -> has_char old (str_replace old new s) = false.
Proof.
  intros Hne. induction s as [|c s IH]; cbn; [reflexivity|].
  rewrite IH, orb_false_r.
  destruct (Ascii.eqb c old) eqn:E.
  - apply Ascii.eqb_neq. congruence.
  - exact E.
Qed.

Lemma str_replace_length (old new : ascii) (s : string) :
  String.length (str_replace old new s) = String.length s.
Proof.
  induction s as [|c s IH]; cbn; [reflexivity|]. rewrite IH. reflexivity.
Qed.

Lemma str_replace_get (old new : ascii) (s : string) (i : nat) :
  String.get i (str_replace old new s) =
  option_map (fun c => if Ascii.eqb c old then new else c) (String.get i s).
Proof.
  revert i. induction s as [|c s IH]; intros i; cbn; [reflexivity|].
  destruct i; [reflexivity | apply IH].
Qed.

Lemma str_split_plain (sep : ascii) (s : string) :
  has_char sep s = false -> str_split sep s = [s].
Proof.
  induction s as [|c s IH]; cbn; [reflexivity|].
  intros H. apply orb_false_iff in H. destruct H as [Hc Hs].
  rewrite Hc, (IH Hs). reflexivity.
Qed.

Lemma prefix_slash (s : string) :
  has_char slash s = false -> String.prefix "/" s = false.
Proof.
  destruct s as [|c s]; [reflexivity|].
  cbn [has_char]. intros H. apply orb_false_iff in H. destruct H as [Hc _].
  change (String.prefix "/" (String c s))
    with (if ascii_dec "/"%char c then String.prefix "" s else false).
  destruct (ascii_dec "/"%char c) as [<-|Hne]; [|reflexivity].
  vm_compute in Hc. discriminate.
Qed.

(** A name with an underscore in it is none of [""], ["."] and [".."]. *)
Lemma underscore_name (s : string) :
  has_char underscore s = true ->
  String.eqb s "" = false /\ String.eqb s "." = false /\ String.eqb s ".." = false.
Proof.
  intros H. repeat split; apply String.eqb_neq; intros ->; discriminate.
Qed.

Lemma plain_name_chars (name : string) :
  plain_name name = true ->
  has_char slash name = false /\ has_char nul name = false.
Proof.
  unfold plain_name. intros H. apply andb_true_iff in H.
  destruct H as [H1 H2]. apply negb_true_iff in H1, H2. auto.
Qed.

(** A name without a separator is one component, placed right under the
    directory it is joined to. *)
Lemma Path_div_plain (dir : Path) (name : string) :
  has_char slash name = false -> has_char underscore name = true ->
  Path_div dir name = {| anchored := anchored dir; parts := parts dir ++ [name] |}.
Proof.
  intros Hslash Hunder.
  destruct (underscore_name name Hunder) as (He & Hd & _).
  unfold Path_div, Path_of.
  rewrite (prefix_slash name Hslash), (str_split_plain slash name Hslash).
  cbn. rewrite He, Hd. reflexivity.
Qed.

(** ** Facts about the file system *)

Lemma fs_lookup_put (fs0 : filesystem) (loc loc' : list string) (n : node) :
  fs_lookup (fs_put fs0 loc n) loc' =
  if bool_decide (loc' `prefix_of` cwd fs0) then Some Dir
  else if decide (loc = loc') then Some n else fs_lookup fs0 loc'.
Proof.
  unfold fs_lookup, fs_put. cbn.
  destruct (bool_decide (loc' `prefix_of` cwd fs0)); [reflexivity|].
  rewrite lookup_insert. reflexivity.
Qed.

Lemma fs_lookup_put_other (fs0 : filesystem) (loc loc' : list string) (n : node) :
  loc <> loc' -> fs_lookup (fs_put fs0 loc n) loc' = fs_lookup fs0 loc'.
Proof.
  intros Hne. rewrite fs_lookup_put.
  unfold fs_lookup.
  destruct (bool_decide (loc' `prefix_of` cwd fs0)); [reflexivity|].
  destruct (decide (loc = loc')); [contradiction | reflexivity].
Qed.

Lemma fs_lookup_put_same (fs0 : filesystem) (loc : list string) (n : node) :
  is_dir fs0 loc = false -> fs_lookup (fs_put fs0 loc n) loc = Some n.
Proof.
  intros Hnd. rewrite fs_lookup_put.
  unfold is_dir, fs_lookup in Hnd.
  destruct (bool_decide (loc `prefix_of` cwd fs0)); [discriminate|].
  destruct (decide (loc = loc)); [reflexivity | contradiction].
Qed.

(** Putting a node where no directory stood keeps every directory. *)
Lemma is_dir_put (fs0 : filesystem) (loc loc' : list string) (n : node) :
  is_dir fs0 loc = false -> is_dir fs0 loc' = true ->
  is_dir (fs_put fs0 loc n) loc' = true.
Proof.
  intros Hnd Hd. unfold is_dir.
  rewrite fs_lookup_put_other; [exact Hd | congruence].
Qed.

(** What [to_csv] does when it succeeds. *)
Lemma to_csv_inr (df : DataFrame) (p : Path) (fs0 fs' : filesystem) :
  to_csv df p fs0 = inr fs' <->
  exists dloc loc,
    locate fs0 (Path_parent p) = inr dloc /\ is_dir fs0 dloc = true /\
    locate fs0 p = inr loc /\ is_dir fs0 loc = false /\
    fs' = fs_put fs0 loc (File (CsvText df)).
Proof.
  unfold to_csv. split.
  - destruct (locate fs0 (Path_parent p)) as [e|dloc]; [discriminate|].
    destruct (is_dir fs0 dloc) eqn:Hd; [|discriminate].
    destruct (locate fs0 p) as [e|loc]; [discriminate|].
    unfold is_dir at 2.
    destruct (fs_lookup fs0 loc) as [[|c]|] eqn:Eo; try discriminate;
      intros [= <-]; exists dloc, loc; rewrite Eo; auto.
  - intros (dloc & loc & -> & -> & -> & Hl & ->).
    unfold is_dir in Hl.
    destruct (fs_lookup fs0 loc) as [[|c]|]; try discriminate; reflexivity.
Qed.

Lemma to_csv_keeps (df : DataFrame) (p : Path) (fs0 fs' : filesystem) :
  to_csv df p fs0 = inr fs' ->
  cwd fs' = cwd fs0 /\
  forall loc, is_dir fs0 loc = true -> is_dir fs' loc = true.
Proof.
  intros H. apply to_csv_inr in H.
  destruct H as (dloc & loc & _ & _ & _ & Hl & ->).
  split; [reflexivity|]. intros loc' Hd. apply is_dir_put; assumption.
Qed.

(** [OUTPUT_DIR.mkdir(parents=True, exist_ok=True)], spelled out. *)
Lemma mkdir_output_dir (fs0 : filesystem) :
  Path_mkdir fs0 OUTPUT_DIR =
  match fs_lookup fs0 (output_loc fs0) with
  | Some Dir => inr fs0
  | Some (File _) => inl FileExistsError
  | None => inr (fs_put fs0 (output_loc fs0) Dir)
  end.
Proof.
  unfold Path_mkdir, output_loc. cbn.
  destruct (fs_lookup fs0 (cwd fs0 ++ ["historical_data"])) as [[|c]|]; reflexivity.
Qed.

(** When no regular file is in the way, the directory is there afterwards
    and nothing else has changed. *)
Lemma mkdir_output_dir_ok (fs0 : filesystem) :
  is_file fs0 (output_loc fs0) = false ->
  exists fs', Path_mkdir fs0 OUTPUT_DIR = inr fs' /\
    cwd fs' = cwd fs0 /\
    is_dir fs' (output_loc fs0) = true /\
    (forall loc, loc <> output_loc fs0 -> fs_lookup fs' loc = fs_lookup fs0 loc) /\
    (forall loc, file_at fs' loc = file_at fs0 loc).
Proof.
  intros Hnf. rewrite mkdir_output_dir. unfold is_file in Hnf.
  destruct (fs_lookup fs0 (output_loc fs0)) as [[|c]|] eqn:E; try discriminate.
  - exists fs0. unfold is_dir. rewrite E. auto.
  - exists (fs_put fs0 (output_loc fs0) Dir).
    assert (Hnd : is_dir fs0 (output_loc fs0) = false)
      by (unfold is_dir; rewrite E; reflexivity).
    split; [reflexivity|]. split; [reflexivity|].
    split; [unfold is_dir; rewrite fs_lookup_put_same; auto|].
    split; [intros loc Hne; apply fs_lookup_put_other; congruence|].
    intros loc. unfold file_at.
    destruct (decide (output_loc fs0 = loc)) as [<-|Hne].
    + rewrite fs_lookup_put_same, E; auto.
    + rewrite fs_lookup_put_other; auto.
Qed.

Lemma mkdir_output_dir_blocked (fs0 : filesystem) :
  is_file fs0 (output_loc fs0) = true ->
  Path_mkdir fs0 OUTPUT_DIR = inl FileExistsError.
Proof.
  intros Hf. rewrite mkdir_output_dir. unfold is_file in Hf.
  destruct (fs_lookup fs0 (output_loc fs0)) as [[|c]|]; try discriminate.
  reflexivity.
Qed.

(** ** Facts about the worker *)

(** One call of the worker on a request whose three fields can be read,
    spelled out by cases. *)
Lemma worker_run (request : json) (output_dir : Path) (w : world)
      (ticker start end_ : json) :
  py_getitem request "ticker" = inr ticker ->
  py_getitem request "start_date" = inr start ->
  py_getitem request "end_date" = inr end_ ->
  fetch_and_save_data request output_dir w =
  let w1 := count_call (add_log w INFO (Fetching ticker start end_)) in
  match history (calls w) ticker start end_ with
  | inl e => (Returns (), add_log w1 ERROR (FetchOrSaveFailed ticker e))
  | inr df =>
      if empty df then (Returns (), add_log w1 WARNING (NoDataFound ticker))
      else
        match replace_dots ticker with
        | inl e => (Returns (), add_log w1 ERROR (FetchOrSaveFailed ticker e))
        | inr safe =>
            let output_path := Path_div output_dir (csv_name safe start end_) in
            match to_csv df output_path (fs w) with
            | inl e => (Returns (), add_log w1 ERROR (FetchOrSaveFailed ticker e))
            | inr fs' => (Returns (), add_log (set_fs w1 fs') INFO (SavedTo output_path))
            end
        end
  end.
Proof.
  intros Ht Hs He.
  unfold fetch_and_save_data, mbind, M_bind, lift, try_except, fetch, fs_write.
  rewrite Ht, Hs, He. cbn.
  destruct (history (calls w) ticker start end_) as [e|df]; [reflexivity|].
  destruct (empty df); [reflexivity|].
  destruct (replace_dots ticker) as [e|safe]; [reflexivity|]. cbn.
  destruct (to_csv df _ (fs w)) as [e|fs']; reflexivity.
Qed.

(** A value that is not an object cannot be subscripted: the worker raises
    before its [try], and nothing handles the exception. *)
Lemma worker_raises (request : json) (output_dir : Path) (w : world) :
  (forall fields, request <> JObj fields) ->
  fetch_and_save_data request output_dir w = (Raises TypeError, w).
Proof.
  intros Hno. destruct request; try reflexivity.
  exfalso. exact (Hno fields eq_refl).
Qed.

Lemma fetch_request_line (request : json) :
  is_fetch_request request = true ->
  exists ticker start end_,
    py_getitem request "ticker" = inr ticker /\
    py_getitem request "start_date" = inr start /\
    py_getitem request "end_date" = inr end_ /\
    fetching_line request = Some (INFO, Fetching ticker start end_).
Proof.
  intros H.
  destruct (fetch_request_fields request "ticker" H) as [t Ht]; [cbn; auto|].
  destruct (fetch_request_fields request "start_date" H) as [s Hs]; [cbn; auto|].
  destruct (fetch_request_fields request "end_date" H) as [e He]; [cbn; auto|].
  exists t, s, e. unfold fetching_line. rewrite Ht, Hs, He. auto.
Qed.

(** On a fetch request the worker always returns: it makes one provider
    call, prints the fetch line and one more line, keeps every directory,
    and changes at most the file it saves. *)
Lemma worker_returns (request : json) (output_dir : Path) (w : world) :
  is_fetch_request request = true ->
  exists w' line last,
    fetch_and_save_data request output_dir w = (Returns (), w') /\
    fetching_line request = Some line /\
    log w' = log w ++ [line; last] /\
    is_fetching last = false /\
    calls w' = S (calls w) /\
    cwd (fs w') = cwd (fs w) /\
    (forall loc, is_dir (fs w) loc = true -> is_dir (fs w') loc = true).
Proof.
  intros Hreq.
  destruct (fetch_request_line request Hreq) as (t & s & e & Ht & Hs & He & Hline).
  rewrite (worker_run request output_dir w t s e Ht Hs He). cbn zeta.
  destruct (history (calls w) t s e) as [err|df].
  { eexists _, _, _. split; [reflexivity|]. split; [exact Hline|].
    cbn. rewrite <- app_assoc. auto. }
  destruct (empty df).
  { eexists _, _, _. split; [reflexivity|]. split; [exact Hline|].
    cbn. rewrite <- app_assoc. auto. }
  destruct (replace_dots t) as [err|safe].
  { eexists _, _, _. split; [reflexivity|]. split; [exact Hline|].
    cbn. rewrite <- app_assoc. auto. }
  destruct (to_csv df _ (fs w)) as [err|fs'] eqn:Hcsv.
  { eexists _, _, _. split; [reflexivity|]. split; [exact Hline|].
    cbn. rewrite <- app_assoc. auto. }
  destruct (to_csv_keeps _ _ _ _ Hcsv) as [Hcwd Hdirs].
  eexists _, _, _. split; [reflexivity|]. split; [exact Hline|].
  cbn. rewrite <- app_assoc. auto.
Qed.

(** ** Facts about the loop of the driver *)

Lemma for_each_app {A : Type} (xs ys : list A) (body : A -> M unit) (w w1 : world) :
  for_each xs body w = (Returns (), w1) ->
  for_each (xs ++ ys) body w = for_each ys body w1.
Proof.
  revert w. induction xs as [|x xs IH]; intros w; cbn [for_each app].
  - intros [= <-]. reflexivity.
  - unfold mbind, M_bind.
    destruct (body x w) as [[[]|e|code] w0]; try discriminate.
    apply IH.
Qed.

Lemma filter_fetching_pair (line last : level * message) (l : list (level * message)) :
  is_fetching line = true -> is_fetching last = false ->
  List.filter is_fetching (l ++ [line; last]) = List.filter is_fetching l ++ [line].
Proof.
  intros Hl Hn. rewrite List.filter_app. cbn. rewrite Hl, Hn. reflexivity.
Qed.

Lemma fetching_line_is_fetching (request : json) (line : level * message) :
  fetching_line request = Some line -> is_fetching line = true.
Proof.
  unfold fetching_line.
  destruct (py_getitem request "ticker"); try discriminate.
  destruct (py_getitem request "start_date"); try discriminate.
  destruct (py_getitem request "end_date"); try discriminate.
  intros [= <-]. reflexivity.
Qed.

(** Over fetch requests the loop runs to its end: one provider call and
    one fetch line per request, in order, and no directory is lost. *)
Lemma for_each_requests (requests : list json) (output_dir : Path) (w : world) :
  Forall (fun request => is_fetch_request request = true) requests ->
  exists w',
    for_each requests (fun request => fetch_and_save_data request output_dir) w
      = (Returns (), w') /\
    calls w' = calls w + List.length requests /\
    List.filter is_fetching (log w') =
      List.filter is_fetching (log w) ++ omap fetching_line requests /\
    cwd (fs w') = cwd (fs w) /\
    (forall loc, is_dir (fs w) loc = true -> is_dir (fs w') loc = true).
Proof.
  intros Hall. revert w.
  induction Hall as [|request rest Hreq _ IH]; intros w.
  - exists w. cbn. rewrite Nat.add_0_r, app_nil_r. auto.
  - destruct (worker_returns request output_dir w Hreq)
      as (w1 & line & last & Hrun & Hline & Hlog & Hlast & Hcalls & Hcwd & Hdirs).
    destruct (IH w1) as (w' & Hrest & Hcalls' & Hlog' & Hcwd' & Hdirs').
    exists w'. cbn [for_each]. unfold mbind, M_bind. rewrite Hrun.
    split; [exact Hrest|].
    split; [rewrite Hcalls', Hcalls; cbn; lia|].
    split.
    + rewrite Hlog', Hlog.
      rewrite (filter_fetching_pair line last (log w)
                 (fetching_line_is_fetching request line Hline) Hlast).
      cbn [omap list_omap]. rewrite Hline. rewrite <- app_assoc. reflexivity.
    + split; [congruence|]. auto.
Qed.

(** Whatever the item, a call of the worker only appends to the log and
    keeps the working directory and every directory. *)
Lemma worker_keeps (request : json) (output_dir : Path) (w : world) :
  exists o w' lines,
    fetch_and_save_data request output_dir w = (o, w') /\
    log w' = log w ++ lines /\
    cwd (fs w') = cwd (fs w) /\
    (forall loc, is_dir (fs w) loc = true -> is_dir (fs w') loc = true).
Proof.
  destruct (is_fetch_request request) eqn:Hreq.
  - destruct (worker_returns request output_dir w Hreq)
      as (w' & line & last & Hrun & _ & Hlog & _ & _ & Hcwd & Hdirs).
    exists (Returns ()), w', [line; last]. auto.
  - exists (fetch_and_save_data request output_dir w).1, w, [].
    rewrite app_nil_r.
    split; [|auto].
    destruct request; try reflexivity.
    unfold is_fetch_request in Hreq. cbn in Hreq.
    unfold fetch_and_save_data, mbind, M_bind, lift. cbn.
    destruct (dict_get "ticker" fields) as [t|] eqn:Et; [|reflexivity].
    destruct (dict_get "start_date" fields) as [s0|] eqn:Es; [|reflexivity].
    destruct (dict_get "end_date" fields) as [e0|] eqn:Ee; [|reflexivity].
    exfalso.
    assert (H1 : dict_has "ticker" fields = true) by (apply dict_has_get; eauto).
    assert (H2 : dict_has "start_date" fields = true) by (apply dict_has_get; eauto).
    assert (H3 : dict_has "end_date" fields = true) by (apply dict_has_get; eauto).
    rewrite H1, H2, H3 in Hreq. discriminate.
Qed.

Lemma for_each_keeps (requests : list json) (output_dir : Path) (w : world) :
  exists o w' lines,
    for_each requests (fun request => fetch_and_save_data request output_dir) w
      = (o, w') /\
    log w' = log w ++ lines /\
    cwd (fs w') = cwd (fs w) /\
    (forall loc, is_dir (fs w) loc = true -> is_dir (fs w') loc = true).
Proof.
  revert w. induction requests as [|request rest IH]; intros w.
  - exists (Returns ()), w, []. rewrite app_nil_r. auto.
  - destruct (worker_keeps request output_dir w)
      as (o & w1 & lines & Hrun & Hlog & Hcwd & Hdirs).
    cbn [for_each]. unfold mbind, M_bind. rewrite Hrun.
    destruct o as [[]|e|code].
    + destruct (IH w1) as (o' & w' & lines' & Hrest & Hlog' & Hcwd' & Hdirs').
      exists o', w', (lines ++ lines').
      split; [exact Hrest|].
      split; [rewrite Hlog', Hlog, app_assoc; reflexivity|].
      split; [congruence | auto].
    + exists (Raises e), w1, lines. auto.
    + exists (Exits code), w1, lines. auto.
Qed.

(** ** More facts about the driver *)

(** Once the configuration is loaded and the directory made, [main] is
    its last statement run in the world reached so far. *)
Lemma main_after_load (args_config : Path) (w w1 : world) (items : list json)
      (fs2 : filesystem) :
  load_config args_config w = (Returns items, w1) ->
  Path_mkdir (fs w1) OUTPUT_DIR = inr fs2 ->
  main args_config w =
  match items with
  | [] => logging WARNING NoRequests
  | _ :: _ =>
      for_each items (fun request => fetch_and_save_data request OUTPUT_DIR);;
      logging INFO AllComplete
  end (add_log (set_fs w1 fs2) INFO (OutputDirSet OUTPUT_DIR)).
Proof.
  intros Hload Hmk.
  unfold main, mbind, M_bind, try_except, fs_write. rewrite Hload, Hmk.
  reflexivity.
Qed.

(** A regular file where the directory should be ends the process with
    status 1, whatever was loaded. *)
Lemma main_mkdir_blocked (args_config : Path) (w w1 : world) (items : list json) :
  load_config args_config w = (Returns items, w1) ->
  is_file (fs w1) (output_loc (fs w1)) = true ->
  main args_config w =
  (Exits 1, add_log w1 ERROR (MkdirFailed OUTPUT_DIR FileExistsError)).
Proof.
  intros Hload Hfile.
  unfold main, mbind, M_bind, try_except, fs_write.
  rewrite Hload, (mkdir_output_dir_blocked _ Hfile). reflexivity.
Qed.

Lemma load_config_success (args_config : Path) (w w1 : world) (items : list json) :
  load_config args_config w = (Returns items, w1) ->
  open_read (fs w) args_config = inr (JsonText (JArr items)) /\
  Forall accepted items /\
  w1 = add_log w INFO (LoadedRequests (List.length items) args_config).
Proof.
  intros Hload.
  destruct (load_config_cases args_config w)
    as [[msg Hexit]|(items' & Hopen & Hall & Hret)]; [congruence|].
  rewrite Hret in Hload. injection Hload as <- <-. auto.
Qed.

Lemma load_config_accepts (args_config : Path) (w : world) (items : list json) :
  open_read (fs w) args_config = inr (JsonText (JArr items)) ->
  Forall accepted items ->
  load_config args_config w =
  (Returns items, add_log w INFO (LoadedRequests (List.length items) args_config)).
Proof.
  intros Hopen Hall.
  destruct (load_config_cases args_config w)
    as [[msg Hexit]|(items' & Hopen' & _ & Hret)].
  - exfalso.
    unfold load_config, mbind, M_bind, fs_query in Hexit.
    rewrite (open_read_exists _ _ _ Hopen) in Hexit.
    cbn [negb mret M_ret] in Hexit.
    unfold try_except, mbind, M_bind, fs_read in Hexit.
    rewrite Hopen in Hexit. cbn in Hexit.
    rewrite (check_items_accepts items w Hall) in Hexit. discriminate.
  - rewrite Hopen in Hopen'. injection Hopen' as <-. exact Hret.
Qed.

(** ** Saving under a plain name *)

Lemma csv_name_underscore (safe : string) (start end_ : json) :
  has_char underscore (csv_name safe start end_) = true.
Proof.
  unfold csv_name. rewrite has_char_app, has_char_app.
  cbn. apply orb_true_r.
Qed.

Lemma walk_app (fs0 : filesystem) (here : list string) (todo1 todo2 : list string) :
  walk fs0 here (todo1 ++ todo2) =
  match walk fs0 here todo1 with
  | inl e => inl e
  | inr mid => walk fs0 mid todo2
  end.
Proof.
  revert here. induction todo1 as [|name rest IH]; intros here; cbn [walk app].
  - reflexivity.
  - destruct (has_char nul name); [reflexivity|].
    destruct (String.eqb name "..").
    + destruct (fs_lookup fs0 here) as [[|c]|]; auto.
    + apply IH.
Qed.

Lemma parent_snoc (loc : list string) (name : string) :
  parent (loc ++ [name]) = loc.
Proof. unfold parent. apply removelast_last. Qed.

(** A plain file name is saved right in the directory it is joined to. *)
Lemma to_csv_plain (df : DataFrame) (dir : Path) (name : string)
      (fs0 : filesystem) (dloc : list string) :
  locate fs0 dir = inr dloc -> is_dir fs0 dloc = true ->
  plain_name name = true -> has_char underscore name = true ->
  is_dir fs0 (dloc ++ [name]) = false ->
  to_csv df (Path_div dir name) fs0 =
  inr (fs_put fs0 (dloc ++ [name]) (File (CsvText df))).
Proof.
  intros Hloc Hdir Hplain Hunder Hfree.
  destruct (plain_name_chars name Hplain) as [Hslash Hnul].
  apply to_csv_inr. exists dloc, (dloc ++ [name]).
  rewrite (Path_div_plain dir name Hslash Hunder).
  unfold locate, base_of, Path_parent in *. cbn [anchored parts].
  rewrite removelast_last, walk_app, Hloc. cbn [walk].
  rewrite Hnul.
  destruct (underscore_name name Hunder) as (_ & _ & ->). auto.
Qed.

Lemma file_at_put (fs0 : filesystem) (loc loc' : list string) (c : content) :
  is_dir fs0 loc = false ->
  file_at (fs_put fs0 loc (File c)) loc' =
  if decide (loc' = loc) then Some c else file_at fs0 loc'.
Proof.
  intros Hfree. unfold file_at.
  destruct (decide (loc' = loc)) as [->|Hne].
  - rewrite fs_lookup_put_same; auto.
  - rewrite fs_lookup_put_other; auto.
Qed.

Lemma locate_output_dir (fs0 : filesystem) :
  locate fs0 OUTPUT_DIR = inr (output_loc fs0).
Proof. reflexivity. Qed.

(** ** The properties of the specification *)

(** C3. For every valid configuration list (every element an object with
    the keys [ticker], [start_date] and [end_date]) the loader returns the
    list itself: same length, same order, the three fields of every element
    as they were, duplicates kept. *)
Theorem load_config_preserves_requests
        (config_path : Path) (w : world) (items : list json) :
  open_read (fs w) config_path = inr (JsonText (JArr items)) ->
  Forall (fun item => is_fetch_request item = true) items ->
  exists requests w',
    load_config config_path w = (Returns requests, w') /\
    requests = items /\
    List.length requests = List.length items /\
    (forall i item, items !! i = Some item ->
       exists request, requests !! i = Some request /\
         forall key, In key REQUIRED_KEYS ->
           exists v, py_getitem item key = inr v /\ py_getitem request key = inr v).
Proof.
  intros Hopen Hall.
  exists items, (add_log w INFO (LoadedRequests (List.length items) config_path)).
  split.
  { apply load_config_accepts; [exact Hopen|].
    eapply Forall_impl; [exact Hall|]. exact fetch_request_accepted. }
  split; [reflexivity|]. split; [reflexivity|].
  intros i item Hi. exists item. split; [exact Hi|].
  intros key Hkey.
  rewrite Forall_forall in Hall.
  assert (Hreq : is_fetch_request item = true).
  { apply Hall. eapply list_elem_of_lookup_2. exact Hi. }
  destruct (fetch_request_fields item key Hreq Hkey) as [v Hv]. eauto.
Qed.

(** C7, as amended.  Every element returned by a successful load passed
    the membership test for the three keys, and every returned object has
    [ticker], [start_date] and [end_date] present.  The values are not
    looked at. *)
Theorem load_config_returns_keyed
        (config_path : Path) (w w' : world) (requests : list json) :
  load_config config_path w = (Returns requests, w') ->
  Forall accepted requests /\
  (forall fields key, In (JObj fields) requests -> In key REQUIRED_KEYS ->
     exists v, dict_get key fields = Some v).
Proof.
  intros Hload. destruct (load_config_success _ _ _ _ Hload) as (_ & Hall & _).
  split; [exact Hall|].
  intros fields key Hin Hkey.
  rewrite Forall_forall in Hall.
  assert (Hacc : accepted (JObj fields)) by (apply Hall, list_elem_of_In, Hin).
  apply accepted_object in Hacc.
  destruct (fetch_request_fields _ key Hacc Hkey) as [v Hv].
  cbn in Hv. destruct (dict_get key fields) as [v'|]; [eauto | discriminate].
Qed.

(** C8. Run with a configuration path that does not exist, the driver
    leaves with status 1 after one error line, and the file system is what
    it was: the output directory is not created. *)
Theorem main_missing_config (args_config : Path) (w : world) :
  Path_exists (fs w) args_config = false ->
  main args_config w = (Exits 1, add_log w ERROR (ConfigNotFound args_config)) /\
  exit_status (main args_config w).1 <> 0%Z /\
  fs (main args_config w).2 = fs w /\
  is_dir (fs (main args_config w).2) (output_loc (fs w)) =
    is_dir (fs w) (output_loc (fs w)).
Proof.
  intros Hmiss.
  assert (Hmain : main args_config w =
                  (Exits 1, add_log w ERROR (ConfigNotFound args_config))).
  { apply main_load_exits.
    unfold load_config, mbind, M_bind, fs_query. rewrite Hmiss. reflexivity. }
  rewrite Hmain. cbn. auto.
Qed.

(** C9. Run with a configuration that holds the empty list, and no regular
    file in the way of the output directory, the driver prints the warning,
    makes no provider call, changes no file, does not print the completion
    line and ends with status 0. *)
Theorem main_empty_config (args_config : Path) (w : world) :
  open_read (fs w) args_config = inr (JsonText (JArr [])) ->
  is_file (fs w) (output_loc (fs w)) = false ->
  exists w',
    main args_config w = (Returns (), w') /\
    exit_status (main args_config w).1 = 0%Z /\
    log w' = log w ++ [(INFO, LoadedRequests 0 args_config);
                       (INFO, OutputDirSet OUTPUT_DIR);
                       (WARNING, NoRequests)] /\
    (forall line, In line (log w') -> In line (log w) \/ line <> (INFO, AllComplete)) /\
    calls w' = calls w /\
    (forall loc, file_at (fs w') loc = file_at (fs w) loc).
Proof.
  intros Hopen Hfree.
  pose proof (load_config_accepts args_config w [] Hopen (List.Forall_nil _)) as Hload.
  destruct (mkdir_output_dir_ok (fs w) Hfree) as (fs2 & Hmk & _ & _ & _ & Hfiles).
  pose proof (main_after_load args_config w _ [] fs2 Hload Hmk) as Hmain.
  eexists. rewrite Hmain. cbn.
  split; [reflexivity|]. split; [reflexivity|]. simpl_world.
  split; [rewrite <- !app_assoc; reflexivity|].
  split.
  { intros line Hin. rewrite <- !app_assoc in Hin. apply in_app_or in Hin.
    destruct Hin as [Hold|Hnew]; [left; exact Hold|right].
    cbn in Hnew. intuition (subst; discriminate). }
  split; [reflexivity | exact Hfiles].
Qed.

(** C10. Whenever the configuration loads, the empty list included, and no
    regular file is in the way, the driver makes [historical_data] in the
    working directory before it looks at the requests: the directory line
    is the first one after the load, the directory is there at the end, and
    with no request at all nothing else has changed. *)
Theorem main_creates_output_dir
        (args_config : Path) (w w1 : world) (items : list json) :
  load_config args_config w = (Returns items, w1) ->
  is_file (fs w) (output_loc (fs w)) = false ->
  exists o w' lines,
    main args_config w = (o, w') /\
    is_dir (fs w') (output_loc (fs w)) = true /\
    log w' = log w1 ++ (INFO, OutputDirSet OUTPUT_DIR) :: lines /\
    (items = [] ->
       o = Returns () /\ lines = [(WARNING, NoRequests)] /\ calls w' = calls w /\
       forall loc, loc <> output_loc (fs w) ->
                   fs_lookup (fs w') loc = fs_lookup (fs w) loc).
Proof.
  intros Hload Hfree.
  destruct (load_config_success _ _ _ _ Hload) as (_ & _ & Hw1).
  assert (Hfs : fs w1 = fs w) by (subst w1; reflexivity).
  assert (Hcalls : calls w1 = calls w) by (subst w1; reflexivity).
  destruct (mkdir_output_dir_ok (fs w) Hfree) as (fs2 & Hmk & _ & Hdir & Hother & _).
  rewrite <- Hfs in Hmk.
  rewrite (main_after_load args_config w w1 items fs2 Hload Hmk).
  destruct items as [|item rest].
  - eexists _, _, _. split; [reflexivity|]. cbn.
    split; [exact Hdir|]. split; [rewrite <- app_assoc; reflexivity|].
    intros _. auto.
  - set (w2 := add_log (set_fs w1 fs2) INFO (OutputDirSet OUTPUT_DIR)).
    destruct (for_each_keeps (item :: rest) OUTPUT_DIR w2)
      as (o & w3 & lines & Hrun & Hlog & _ & Hdirs).
    unfold mbind, M_bind. rewrite Hrun.
    assert (Hdir3 : is_dir (fs w3) (output_loc (fs w)) = true)
      by (apply Hdirs; exact Hdir).
    destruct o as [[]|e|code].
    + eexists _, _, (lines ++ [(INFO, AllComplete)]). split; [reflexivity|].
      cbn. split; [exact Hdir3|]. split; [|discriminate].
      rewrite Hlog. cbn. rewrite <- !app_assoc. reflexivity.
    + eexists _, _, lines. split; [reflexivity|].
      split; [exact Hdir3|]. split; [|discriminate].
      rewrite Hlog. cbn. rewrite <- !app_assoc. reflexivity.
    + eexists _, _, lines. split; [reflexivity|].
      split; [exact Hdir3|]. split; [|discriminate].
      rewrite Hlog. cbn. rewrite <- !app_assoc. reflexivity.
Qed.

(** C4, as amended.  For a single request whose fetch returns a frame: with
    no row the worker prints the warning, returns normally and leaves the
    file system as it was.  With at least one row, a string ticker, a file
    name (the sanitized ticker, ["_"], the start date, ["_to_"], the end
    date, [".csv"]) that holds neither the path separator nor NUL, an
    output directory that exists and no directory standing at the place of
    the file, the worker returns having written exactly one file: the one
    of that name right in the output directory, holding the frame. *)
Theorem fetch_and_save_data_plain_rows
        (request : json) (output_dir : Path) (w : world)
        (ticker start end_ : json) (df : DataFrame) :
  py_getitem request "ticker" = inr ticker ->
  py_getitem request "start_date" = inr start ->
  py_getitem request "end_date" = inr end_ ->
  history (calls w) ticker start end_ = inr df ->
  (empty df = true ->
     exists w',
       fetch_and_save_data request output_dir w = (Returns (), w') /\
       fs w' = fs w /\
       log w' = log w ++ [(INFO, Fetching ticker start end_);
                          (WARNING, NoDataFound ticker)]) /\
  (empty df = false ->
     forall (t : string) (dloc : list string),
       ticker = JStr t ->
       let name := (str_replace dot underscore t ++ "_" ++ py_str start
                      ++ "_to_" ++ py_str end_ ++ ".csv")%string in
       plain_name name = true ->
       locate (fs w) output_dir = inr dloc ->
       is_dir (fs w) dloc = true ->
       is_dir (fs w) (dloc ++ [name]) = false ->
       exists w',
         fetch_and_save_data request output_dir w = (Returns (), w') /\
         file_at (fs w') (dloc ++ [name]) = Some (CsvText df) /\
         (forall loc, loc <> dloc ++ [name] ->
                      fs_lookup (fs w') loc = fs_lookup (fs w) loc) /\
         log w' = log w ++
                  [(INFO, Fetching ticker start end_);
                   (INFO, SavedTo {| anchored := anchored output_dir;
                                     parts := parts output_dir ++ [name] |})]).
Proof.
  intros Ht Hs He Hfetch. split.
  - intros Hempty.
    rewrite (worker_run request output_dir w ticker start end_ Ht Hs He).
    cbn zeta. rewrite Hfetch, Hempty.
    eexists. split; [reflexivity|]. simpl_world.
    rewrite <- app_assoc. auto.
  - intros Hrows t dloc -> name Hplain Hdloc Hdir Hfree.
    assert (Hunder : has_char underscore name = true)
      by (apply (csv_name_underscore (str_replace dot underscore t) start end_)).
    rewrite (worker_run request output_dir w (JStr t) start end_ Ht Hs He).
    cbn zeta. rewrite Hfetch, Hrows. cbn [replace_dots].
    change (csv_name (str_replace dot underscore t) start end_) with name.
    rewrite (to_csv_plain df output_dir name (fs w) dloc
               Hdloc Hdir Hplain Hunder Hfree).
    rewrite (Path_div_plain output_dir name
               (proj1 (plain_name_chars name Hplain)) Hunder).
    eexists. split; [reflexivity|]. simpl_world.
    split; [rewrite file_at_put by exact Hfree; case_decide; congruence|].
    split; [intros loc Hne; apply fs_lookup_put_other; congruence|].
    rewrite <- app_assoc. reflexivity.
Qed.

(** C5. After a fetch that returned rows, the only file the worker can
    have written is [OUTPUT_DIR / name] with [name] the sanitized ticker,
    ["_"], the start date, ["_to_"], the end date and [".csv"]; when that
    name is a plain file name and the output directory exists, the file is
    [historical_data/name] and it is written.  For [BRK.B] from 2020-01-01
    to 2020-12-31 the name is [BRK_B_2020-01-01_to_2020-12-31.csv], and the
    sanitized ticker is the ticker with every ['.'] turned into ['_']. *)
Theorem csv_file_name :
  (forall (request : json) (w : world) (t : string) (start end_ : json)
          (df : DataFrame),
      py_getitem request "ticker" = inr (JStr t) ->
      py_getitem request "start_date" = inr start ->
      py_getitem request "end_date" = inr end_ ->
      history (calls w) (JStr t) start end_ = inr df ->
      empty df = false ->
      let name := (str_replace dot underscore t ++ "_" ++ py_str start
                     ++ "_to_" ++ py_str end_ ++ ".csv")%string in
      exists w',
        fetch_and_save_data request OUTPUT_DIR w = (Returns (), w') /\
        (fs w' <> fs w ->
           to_csv df (Path_div OUTPUT_DIR name) (fs w) = inr (fs w')) /\
        (plain_name name = true ->
         is_dir (fs w) (output_loc (fs w)) = true ->
         is_dir (fs w) (output_loc (fs w) ++ [name]) = false ->
           Path_div OUTPUT_DIR name =
             {| anchored := false; parts := ["historical_data"; name] |} /\
           file_at (fs w') (output_loc (fs w) ++ [name]) = Some (CsvText df) /\
           List.last (log w') (INFO, AllComplete) =
             (INFO, SavedTo (Path_div OUTPUT_DIR name)))) /\
  csv_name (str_replace dot underscore "BRK.B") (JStr "2020-01-01") (JStr "2020-12-31")
    = "BRK_B_2020-01-01_to_2020-12-31.csv" /\
  (forall t : string,
      has_char dot (str_replace dot underscore t) = false /\
      String.length (str_replace dot underscore t) = String.length t /\
      forall i, String.get i (str_replace dot underscore t) =
                option_map (fun c => if Ascii.eqb c dot then underscore else c)
                           (String.get i t)).
Proof.
  split; [|split].
  - intros request w t start end_ df Ht Hs He Hfetch Hrows name.
    rewrite (worker_run request OUTPUT_DIR w (JStr t) start end_ Ht Hs He).
    cbn zeta. rewrite Hfetch, Hrows. cbn [replace_dots].
    change (csv_name (str_replace dot underscore t) start end_) with name.
    destruct (to_csv df (Path_div OUTPUT_DIR name) (fs w)) as [e|fs'] eqn:Hcsv.
    + eexists. split; [reflexivity|]. simpl_world.
      split; [congruence|].
      intros Hplain Hdir Hfree. exfalso.
      rewrite (to_csv_plain df OUTPUT_DIR name (fs w) (output_loc (fs w))) in Hcsv;
        auto using locate_output_dir.
      * discriminate.
      * apply csv_name_underscore.
    + eexists. split; [reflexivity|]. simpl_world.
      split; [reflexivity|].
      intros Hplain Hdir Hfree.
      rewrite (to_csv_plain df OUTPUT_DIR name (fs w) (output_loc (fs w))) in Hcsv;
        auto using locate_output_dir; [|apply csv_name_underscore].
      injection Hcsv as <-.
      split; [apply Path_div_plain;
              [apply plain_name_chars, Hplain | apply csv_name_underscore]|].
      split; [rewrite file_at_put by exact Hfree; case_decide; congruence|].
      apply last_last.
  - reflexivity.
  - intros t. split; [apply str_replace_removes; discriminate|].
    split; [apply str_replace_length | apply str_replace_get].
Qed.

(** C1. In any sequence of requests, a request whose fetch raises is
    handled inside the worker: the call returns normally, the error is
    logged, the file system is untouched, and the loop of the driver goes
    on to process every request after it, one provider call and one fetch
    line each; whichever fetches raise, the driver gets through the whole
    configuration and ends with status 0 after the completion line.  In
    particular, when the configuration holds two requests,
    the fetch of the first raises and that of the second returns rows under
    a plain file name, the driver ends with status 0 and exactly one file
    has been written, the one of the second request. *)
Theorem fetch_error_is_isolated :
  (forall (before after : list json) (request ticker start end_ : json)
          (e : exn) (w : world),
      Forall (fun r => is_fetch_request r = true) (before ++ request :: after) ->
      py_getitem request "ticker" = inr ticker ->
      py_getitem request "start_date" = inr start ->
      py_getitem request "end_date" = inr end_ ->
      history (calls w + List.length before) ticker start end_ = inl e ->
      let worker := fun r => fetch_and_save_data r OUTPUT_DIR in
      exists w1 w2 w3,
        for_each before worker w = (Returns (), w1) /\
        worker request w1 = (Returns (), w2) /\
        fs w2 = fs w1 /\
        log w2 = log w1 ++ [(INFO, Fetching ticker start end_);
                            (ERROR, FetchOrSaveFailed ticker e)] /\
        for_each after worker w2 = (Returns (), w3) /\
        for_each (before ++ request :: after) worker w = (Returns (), w3) /\
        calls w3 = calls w2 + List.length after /\
        List.filter is_fetching (log w3) =
          List.filter is_fetching (log w2) ++ omap fetching_line after) /\
  (forall (args_config : Path) (requests : list json) (w : world),
      open_read (fs w) args_config = inr (JsonText (JArr requests)) ->
      requests <> [] ->
      Forall (fun r => is_fetch_request r = true) requests ->
      is_file (fs w) (output_loc (fs w)) = false ->
      exists w',
        main args_config w = (Returns (), w') /\
        exit_status (main args_config w).1 = 0%Z /\
        calls w' = calls w + List.length requests /\
        List.filter is_fetching (log w') =
          List.filter is_fetching (log w) ++ omap fetching_line requests /\
        List.last (log w') (INFO, NoRequests) = (INFO, AllComplete)) /\
  (forall (args_config : Path) (first second ticker1 start1 end1 : json)
          (ticker2 : string) (start2 end2 : json)
          (e : exn) (df : DataFrame) (w : world),
      open_read (fs w) args_config = inr (JsonText (JArr [first; second])) ->
      is_file (fs w) (output_loc (fs w)) = false ->
      py_getitem first "ticker" = inr ticker1 ->
      py_getitem first "start_date" = inr start1 ->
      py_getitem first "end_date" = inr end1 ->
      py_getitem second "ticker" = inr (JStr ticker2) ->
      py_getitem second "start_date" = inr start2 ->
      py_getitem second "end_date" = inr end2 ->
      history (calls w) ticker1 start1 end1 = inl e ->
      history (S (calls w)) (JStr ticker2) start2 end2 = inr df ->
      empty df = false ->
      let name := csv_name (str_replace dot underscore ticker2) start2 end2 in
      let saved := output_loc (fs w) ++ [name] in
      plain_name name = true ->
      is_dir (fs w) saved = false ->
      exists w',
        main args_config w = (Returns (), w') /\
        exit_status (main args_config w).1 = 0%Z /\
        (forall loc, file_at (fs w') loc =
                     if decide (loc = saved) then Some (CsvText df)
                     else file_at (fs w) loc) /\
        In (ERROR, FetchOrSaveFailed ticker1 e) (log w') /\
        List.last (log w') (INFO, NoRequests) = (INFO, AllComplete)).
Proof.
  split; [|split].
  - intros before after request ticker start end_ e w Hall Ht Hs He Hraise worker.
    apply Forall_app in Hall. destruct Hall as [Hbefore Hrest].
    apply Forall_cons in Hrest. destruct Hrest as [Hreq Hafter].
    destruct (for_each_requests before OUTPUT_DIR w Hbefore)
      as (w1 & Hrun1 & Hcalls1 & _).
    pose proof (worker_run request OUTPUT_DIR w1 ticker start end_ Ht Hs He) as Hrun2.
    cbn zeta in Hrun2. rewrite Hcalls1, Hraise in Hrun2.
    destruct (for_each_requests after OUTPUT_DIR
                (add_log (count_call (add_log w1 INFO (Fetching ticker start end_)))
                         ERROR (FetchOrSaveFailed ticker e)) Hafter)
      as (w3 & Hrun3 & Hcalls3 & Hlog3 & _).
    eexists w1, _, w3. subst worker.
    split; [exact Hrun1|]. split; [exact Hrun2|]. simpl_world.
    split; [reflexivity|].
    split; [rewrite <- app_assoc; reflexivity|].
    split; [exact Hrun3|].
    split; [|split; [exact Hcalls3 | exact Hlog3]].
    rewrite (for_each_app before (request :: after) _ w w1 Hrun1).
    cbn [for_each]. unfold mbind, M_bind. rewrite Hrun2. exact Hrun3.
  - intros args_config requests w Hopen Hsome Hall Hnofile.
    assert (Hacc : Forall accepted requests).
    { eapply Forall_impl; [exact Hall|]. exact fetch_request_accepted. }
    pose proof (load_config_accepts args_config w _ Hopen Hacc) as Hload.
    destruct (mkdir_output_dir_ok (fs w) Hnofile) as (fs2 & Hmk & _).
    rewrite (main_after_load args_config w _ _ fs2 Hload Hmk).
    destruct requests as [|request rest]; [contradiction|].
    match goal with
    | |- context [ _ ?w2 = (Returns (), _) ] =>
        destruct (for_each_requests (request :: rest) OUTPUT_DIR w2 Hall)
          as (w3 & Hrun & Hcalls & Hlog & _)
    end.
    unfold mbind, M_bind. rewrite Hrun.
    eexists. split; [reflexivity|]. cbn [fst exit_status]. simpl_world.
    split; [reflexivity|]. split; [exact Hcalls|].
    split; [|apply last_last].
    rewrite List.filter_app, Hlog, !List.filter_app. cbn [List.filter is_fetching].
    rewrite !app_nil_r. reflexivity.
  - intros args_config first second ticker1 start1 end1 ticker2 start2 end2
           e df w Hopen Hnofile Ht1 Hs1 He1 Ht2 Hs2 He2 Hraise Hrows Hnonempty
           name saved Hplain Hfree.
    assert (Hacc : Forall accepted [first; second]).
    { repeat constructor; apply fetch_request_accepted.
      - destruct first; try discriminate. cbn in *.
        unfold is_fetch_request. cbn.
        destruct (dict_get "ticker" fields) eqn:E1; [|discriminate].
        destruct (dict_get "start_date" fields) eqn:E2; [|discriminate].
        destruct (dict_get "end_date" fields) eqn:E3; [|discriminate].
        rewrite !(proj2 (dict_has_get _ _)) by eauto. reflexivity.
      - destruct second; try discriminate. cbn in *.
        unfold is_fetch_request. cbn.
        destruct (dict_get "ticker" fields) eqn:E1; [|discriminate].
        destruct (dict_get "start_date" fields) eqn:E2; [|discriminate].
        destruct (dict_get "end_date" fields) eqn:E3; [|discriminate].
        rewrite !(proj2 (dict_has_get _ _)) by eauto. reflexivity. }
    pose proof (load_config_accepts args_config w _ Hopen Hacc) as Hload.
    destruct (mkdir_output_dir_ok (fs w) Hnofile)
      as (fs2 & Hmk & Hcwd & Hdir & Hother & Hfiles).
    rewrite (main_after_load args_config w _ _ fs2 Hload Hmk).
    cbn [for_each]. unfold mbind, M_bind.
    rewrite (worker_run first OUTPUT_DIR _ ticker1 start1 end1 Ht1 Hs1 He1).
    cbn zeta. simpl_world. rewrite Hraise.
    rewrite (worker_run second OUTPUT_DIR _ (JStr ticker2) start2 end2 Ht2 Hs2 He2).
    cbn zeta. simpl_world. rewrite Hrows, Hnonempty. cbn [replace_dots].
    fold name.
    assert (Hfree2 : is_dir fs2 saved = false).
    { unfold is_dir. rewrite Hother; [exact Hfree|].
      unfold saved. intros Heq. apply (f_equal List.length) in Heq.
      rewrite length_app in Heq. cbn in Heq. lia. }
    assert (Hloc2 : locate fs2 OUTPUT_DIR = inr (output_loc (fs w))).
    { rewrite locate_output_dir. unfold output_loc. rewrite Hcwd. reflexivity. }
    rewrite (to_csv_plain df OUTPUT_DIR name fs2 (output_loc (fs w))
               Hloc2 Hdir Hplain (csv_name_underscore _ _ _) Hfree2).
    eexists. split; [reflexivity|]. cbn [fst exit_status]. simpl_world.
    split; [reflexivity|].
    split.
    { intros loc. rewrite file_at_put by exact Hfree2.
      fold saved. case_decide; [reflexivity | apply Hfiles]. }
    split.
    { rewrite !in_app_iff. cbn. tauto. }
    apply last_last.
Qed.

(** ** Further properties of the loader *)

Lemma check_items_world (items : list json) (w : world) :
  (check_items items w).2 = w.
Proof.
  induction items as [|item rest IH]; [reflexivity|].
  cbn [check_items]. unfold mbind, M_bind, lift.
  destruct (all_keys_in REQUIRED_KEYS item) as [e|[|]]; cbn; auto.
Qed.

Lemma check_items_first_bad (good rest : list json) (bad : json) (w : world) :
  Forall accepted good ->
  check_items (good ++ bad :: rest) w =
  match all_keys_in REQUIRED_KEYS bad with
  | inl e => (Raises e, w)
  | inr false => (Raises (ValueError (InvalidItem bad)), w)
  | inr true => check_items rest w
  end.
Proof.
  induction 1 as [|item good Hitem _ IH]; cbn [app check_items];
    unfold mbind, M_bind, lift.
  - destruct (all_keys_in REQUIRED_KEYS bad) as [e|[|]]; reflexivity.
  - rewrite Hitem. cbn. exact IH.
Qed.

(** Following a path never fails with [IsADirectoryError]. *)
Lemma walk_error (fs0 : filesystem) (here todo : list string) (e : exn) :
  walk fs0 here todo = inl e -> e <> IsADirectoryError.
Proof.
  revert here. induction todo as [|name rest IH]; intros here; cbn [walk].
  - discriminate.
  - destruct (has_char nul name); [intros [= <-]; discriminate|].
    destruct (String.eqb name "..").
    + destruct (fs_lookup fs0 here) as [[|c]|];
        [apply IH | intros [= <-]; discriminate | intros [= <-]; discriminate].
    + apply IH.
Qed.

(** Running [load_config] on a file that decodes to a list. *)
Lemma load_config_list (config_path : Path) (w : world) (items : list json) (e : exn) :
  open_read (fs w) config_path = inr (JsonText (JArr items)) ->
  check_items items w = (Raises e, w) ->
  load_config config_path w =
  (Exits 1,
   add_log w ERROR
     (match e with
      | JSONDecodeError => DecodeFailed config_path
      | _ => if is_ValueError e then InvalidConfiguration e else UnexpectedError e
      end)).
Proof.
  intros Hopen Hcheck.
  unfold load_config, mbind, M_bind, fs_query.
  rewrite (open_read_exists _ _ _ Hopen). cbn [negb mret M_ret].
  unfold try_except, mbind, M_bind, fs_read. rewrite Hopen. cbn.
  rewrite Hcheck. destruct e; reflexivity.
Qed.

(** The line a handler of [load_config] prints is never the one about a
    missing file. *)
Lemma load_config_handler_line (config_path : Path) (e : exn) (w : world) :
  exists msg,
    (match e with
     | JSONDecodeError => logging ERROR (DecodeFailed config_path);; sys_exit 1
     | _ => if is_ValueError e
            then logging ERROR (InvalidConfiguration e);; sys_exit 1
            else logging ERROR (UnexpectedError e);; sys_exit 1
     end : M (list json)) w = (Exits 1, add_log w ERROR msg) /\
    msg <> ConfigNotFound config_path.
Proof.
  destruct e; cbn; eexists; (split; [reflexivity | discriminate]).
Qed.

(** X1. Once [config_path.exists()] has answered that something is at the
    path, [load_config] lets no exception out, whatever it is that stands
    there (a directory, a text [json.load] returns a value on, a text that
    is not JSON, bytes that are not text, a text with an integer above the
    digit limit, a text nested beyond the recursion limit): it ends either
    by [sys.exit(1)] after one error line, which is not the one about a
    missing file, or by returning the list [json.load] gave after one
    information line, and it leaves the file system and the provider
    alone. *)
Theorem load_config_contains_errors (config_path : Path) (w : world) :
  Path_exists (fs w) config_path = true ->
  exists o lvl msg,
    load_config config_path w = (o, add_log w lvl msg) /\
    fs (load_config config_path w).2 = fs w /\
    calls (load_config config_path w).2 = calls w /\
    ((o = Exits 1 /\ lvl = ERROR /\ msg <> ConfigNotFound config_path) \/
     (exists items,
         o = Returns items /\ lvl = INFO /\
         msg = LoadedRequests (List.length items) config_path /\
         open_read (fs w) config_path = inr (JsonText (JArr items)))).
Proof.
  intros Hfound.
  assert (Hcases :
            (exists msg, load_config config_path w = (Exits 1, add_log w ERROR msg) /\
                         msg <> ConfigNotFound config_path) \/
            (exists items,
                open_read (fs w) config_path = inr (JsonText (JArr items)) /\
                load_config config_path w =
                  (Returns items,
                   add_log w INFO (LoadedRequests (List.length items) config_path)))).
  { unfold load_config, mbind, M_bind, fs_query. rewrite Hfound.
    cbn [negb mret M_ret].
    unfold try_except, mbind, M_bind, fs_read.
    destruct (open_read (fs w) config_path) as [e|c] eqn:Hopen.
    { left. apply load_config_handler_line. }
    unfold lift at 1.
    destruct (json_load c) as [e|v] eqn:Hload.
    { left. apply load_config_handler_line. }
    destruct c; cbn in Hload; try discriminate.
    injection Hload as ->.
    destruct v; try (left; eexists; split; [reflexivity | discriminate]).
    destruct (check_items_cases items w) as [[Hall Hrun]|[e Hrun]];
      cbn; rewrite Hrun.
    - right. exists items. auto.
    - left. apply load_config_handler_line. }
  destruct Hcases as [(msg & Hexit & Hmsg)|(items & Hopen & Hret)].
  - exists (Exits 1), ERROR, msg. rewrite Hexit.
    split; [reflexivity|]. split; [reflexivity|]. split; [reflexivity|].
    left. auto.
  - exists (Returns items), INFO, (LoadedRequests (List.length items) config_path).
    rewrite Hret. split; [reflexivity|]. split; [reflexivity|].
    split; [reflexivity|]. right. exists items. auto.
Qed.

(** X2. Which error line each kind of unusable configuration file gets:
    a missing path, a path that is a directory, a text that is not JSON,
    bytes that are not text (a [UnicodeDecodeError] is a [ValueError]),
    and a JSON value that is not a list. *)
Theorem load_config_file_errors (config_path : Path) (w : world) :
  (Path_exists (fs w) config_path = false ->
   load_config config_path w =
     (Exits 1, add_log w ERROR (ConfigNotFound config_path))) /\
  (open_read (fs w) config_path = inl IsADirectoryError ->
   load_config config_path w =
     (Exits 1, add_log w ERROR (UnexpectedError IsADirectoryError))) /\
  (forall c, open_read (fs w) config_path = inr c ->
             json_load c = inl JSONDecodeError ->
   load_config config_path w =
     (Exits 1, add_log w ERROR (DecodeFailed config_path))) /\
  (open_read (fs w) config_path = inr BadBytes ->
   load_config config_path w =
     (Exits 1, add_log w ERROR (InvalidConfiguration UnicodeDecodeError))) /\
  (forall v, open_read (fs w) config_path = inr (JsonText v) ->
             (forall items, v <> JArr items) ->
   load_config config_path w =
     (Exits 1, add_log w ERROR (InvalidConfiguration (ValueError MustBeList)))).
Proof.
  repeat split.
  - intros Hmiss. unfold load_config, mbind, M_bind, fs_query.
    rewrite Hmiss. reflexivity.
  - intros Hopen.
    assert (Hex : Path_exists (fs w) config_path = true).
    { unfold open_read in Hopen. unfold Path_exists.
      destruct (locate (fs w) config_path) as [e|loc] eqn:Hloc.
      - injection Hopen as ->. exfalso.
        exact (walk_error _ _ _ _ Hloc eq_refl).
      - destruct (fs_lookup (fs w) loc) as [[|c]|]; try discriminate.
        apply bool_decide_eq_true. eauto. }
    unfold load_config, mbind, M_bind, fs_query. rewrite Hex.
    cbn [negb mret M_ret]. unfold try_except, mbind, M_bind, fs_read.
    rewrite Hopen. reflexivity.
  - intros c Hopen Hload.
    unfold load_config, mbind, M_bind, fs_query.
    rewrite (open_read_exists _ _ _ Hopen). cbn [negb mret M_ret].
    unfold try_except, mbind, M_bind, fs_read, lift. rewrite Hopen, Hload.
    reflexivity.
  - intros Hopen.
    unfold load_config, mbind, M_bind, fs_query.
    rewrite (open_read_exists _ _ _ Hopen). cbn [negb mret M_ret].
    unfold try_except, mbind, M_bind, fs_read, lift. rewrite Hopen.
    reflexivity.
  - intros v Hopen Hnot.
    unfold load_config, mbind, M_bind, fs_query.
    rewrite (open_read_exists _ _ _ Hopen). cbn [negb mret M_ret].
    unfold try_except, mbind, M_bind, fs_read, lift. rewrite Hopen. cbn.
    destruct v; try reflexivity. exfalso. exact (Hnot items eq_refl).
Qed.

(** X3. Validation stops at the first item that fails the test and
    reports that item: a container or string without the three names gives
    the "invalid configuration" line with the item, a scalar gives the
    "unexpected error" line of its [TypeError].  Items after it are not
    looked at. *)
Theorem load_config_first_bad_item
        (config_path : Path) (w : world) (good rest : list json) (bad : json) :
  open_read (fs w) config_path = inr (JsonText (JArr (good ++ bad :: rest))) ->
  Forall accepted good ->
  (all_keys_in REQUIRED_KEYS bad = inr false ->
   load_config config_path w =
     (Exits 1, add_log w ERROR (InvalidConfiguration (ValueError (InvalidItem bad))))) /\
  ((forall s, bad <> JStr s) -> (forall l, bad <> JArr l) ->
   (forall fields, bad <> JObj fields) ->
   load_config config_path w =
     (Exits 1, add_log w ERROR (UnexpectedError TypeError))).
Proof.
  intros Hopen Hgood. split.
  - intros Hbad.
    rewrite (load_config_list config_path w _ (ValueError (InvalidItem bad)) Hopen);
      [reflexivity|].
    rewrite (check_items_first_bad good rest bad w Hgood), Hbad. reflexivity.
  - intros Hstr Harr Hobj.
    rewrite (load_config_list config_path w _ TypeError Hopen); [reflexivity|].
    rewrite (check_items_first_bad good rest bad w Hgood).
    destruct bad; try reflexivity.
    + exfalso. exact (Hstr s eq_refl).
    + exfalso. exact (Harr items eq_refl).
    + exfalso. exact (Hobj fields eq_refl).
Qed.

(** ** Further properties of the worker *)

(** What the worker does with an item that is not a fetch request: the
    subscripts before the [try] raise, and nothing has happened yet. *)
Lemma worker_bad_item (request : json) (output_dir : Path) (w : world) :
  is_fetch_request request = false ->
  exists e,
    fetch_and_save_data request output_dir w = (Raises e, w) /\
    (((forall fields, request <> JObj fields) /\ e = TypeError) \/
     (exists fields key,
         request = JObj fields /\ In key REQUIRED_KEYS /\
         dict_get key fields = None /\ e = KeyError key)).
Proof.
  intros Hbad.
  destruct request;
    try (exists TypeError; split; [reflexivity|]; left; split;
         [intros fields; discriminate | reflexivity]).
  unfold fetch_and_save_data, mbind, M_bind, lift. cbn [py_getitem].
  destruct (dict_get "ticker" fields) as [t|] eqn:Et.
  2:{ exists (KeyError "ticker"). split; [reflexivity|]. right.
      exists fields, "ticker". cbn. auto. }
  destruct (dict_get "start_date" fields) as [s0|] eqn:Es.
  2:{ exists (KeyError "start_date"). split; [reflexivity|]. right.
      exists fields, "start_date". cbn. auto. }
  destruct (dict_get "end_date" fields) as [e0|] eqn:Ee.
  2:{ exists (KeyError "end_date"). split; [reflexivity|]. right.
      exists fields, "end_date". cbn. auto 6. }
  exfalso. unfold is_fetch_request in Hbad. cbn in Hbad.
  rewrite !(proj2 (dict_has_get _ _)) in Hbad by eauto. discriminate.
Qed.

(** The loop either gets through all its items, which then are all fetch
    requests, or stops with an exception at the first that is not. *)
Lemma for_each_dichotomy (items : list json) (output_dir : Path) (w : world) :
  (Forall (fun r => is_fetch_request r = true) items /\
   exists w', for_each items (fun r => fetch_and_save_data r output_dir) w
              = (Returns (), w')) \/
  (Exists (fun r => is_fetch_request r = false) items /\
   exists e w', for_each items (fun r => fetch_and_save_data r output_dir) w
                = (Raises e, w')).
Proof.
  revert w. induction items as [|item rest IH]; intros w.
  - left. split; [constructor | exists w; reflexivity].
  - cbn [for_each]. unfold mbind, M_bind.
    destruct (is_fetch_request item) eqn:Hitem.
    + destruct (worker_returns item output_dir w Hitem) as (w1 & _ & _ & Hrun & _).
      rewrite Hrun.
      destruct (IH w1) as [[Hall Hret]|[Hex Hraise]].
      * left. split; [constructor; assumption | exact Hret].
      * right. split; [apply Exists_cons_tl; exact Hex | exact Hraise].
    + destruct (worker_bad_item item output_dir w Hitem) as (e & Hrun & _).
      rewrite Hrun. right. split; [apply Exists_cons_hd; exact Hitem | eauto].
Qed.

(** X4. The worker returns normally exactly on an object that has the
    three keys.  On anything else it raises before it has logged or fetched
    anything: [TypeError] for a value that is not an object, [KeyError] for
    an object with a key missing. *)
Theorem fetch_and_save_data_needs_request
        (request : json) (output_dir : Path) (w : world) :
  (is_fetch_request request = true ->
   exists w', fetch_and_save_data request output_dir w = (Returns (), w') /\
              calls w' = S (calls w)) /\
  (is_fetch_request request = false ->
   exists e,
     fetch_and_save_data request output_dir w = (Raises e, w) /\
     (((forall fields, request <> JObj fields) /\ e = TypeError) \/
      (exists fields key,
          request = JObj fields /\ In key REQUIRED_KEYS /\
          dict_get key fields = None /\ e = KeyError key))).
Proof.
  split.
  - intros Hreq.
    destruct (worker_returns request output_dir w Hreq)
      as (w' & _ & _ & Hrun & _ & _ & _ & Hcalls & _).
    eauto.
  - apply worker_bad_item.
Qed.

(** X5. The loop of the driver stops at the first item that is not a fetch
    request: the requests before it have been processed, the exception
    leaves the loop, and no item after it is fetched or even announced. *)
Theorem for_each_stops_at_bad_item
        (before after : list json) (bad : json) (w : world) :
  Forall (fun r => is_fetch_request r = true) before ->
  is_fetch_request bad = false ->
  let worker := fun r => fetch_and_save_data r OUTPUT_DIR in
  exists e w1,
    for_each before worker w = (Returns (), w1) /\
    for_each (before ++ bad :: after) worker w = (Raises e, w1) /\
    calls w1 = calls w + List.length before /\
    List.filter is_fetching (log w1) =
      List.filter is_fetching (log w) ++ omap fetching_line before.
Proof.
  intros Hbefore Hbad worker.
  destruct (for_each_requests before OUTPUT_DIR w Hbefore)
    as (w1 & Hrun & Hcalls & Hlog & _).
  destruct (worker_bad_item bad OUTPUT_DIR w1 Hbad) as (e & Hraise & _).
  exists e, w1. subst worker.
  split; [exact Hrun|]. split; [|split; assumption].
  rewrite (for_each_app before (bad :: after) _ w w1 Hrun).
  cbn [for_each]. unfold mbind, M_bind. rewrite Hraise. reflexivity.
Qed.

(** The status [main] ends with, by the text of the configuration file. *)
Lemma main_status_by_text (args_config : Path) (w : world) :
  (exit_status (main args_config w).1 = 0%Z \/
   exit_status (main args_config w).1 = 1%Z) /\
  (exit_status (main args_config w).1 = 0%Z <->
   exists items,
     open_read (fs w) args_config = inr (JsonText (JArr items)) /\
     Forall (fun r => is_fetch_request r = true) items /\
     is_file (fs w) (output_loc (fs w)) = false).
Proof.
  destruct (load_config_cases args_config w)
    as [[msg Hexit]|(items & Hopen & Hacc & Hload)].
  { rewrite (main_load_exits _ _ _ _ Hexit). cbn.
    split; [right; reflexivity|]. split; [discriminate|].
    intros (items & Hopen & Hall & _). exfalso.
    rewrite (load_config_accepts args_config w items Hopen) in Hexit;
      [discriminate|].
    eapply Forall_impl; [exact Hall | exact fetch_request_accepted]. }
  destruct (is_file (fs w) (output_loc (fs w))) eqn:Hfile.
  { rewrite (main_mkdir_blocked args_config w _ items Hload Hfile). cbn.
    split; [right; reflexivity|]. split; [discriminate|].
    intros (_ & _ & _ & Hno). discriminate. }
  destruct (mkdir_output_dir_ok (fs w) Hfile) as (fs2 & Hmk & _).
  rewrite (main_after_load args_config w _ items fs2 Hload Hmk).
  destruct items as [|item rest].
  { cbn. split; [left; reflexivity|]. split; [|reflexivity].
    intros _. exists []. auto. }
  unfold mbind, M_bind.
  match goal with
  | |- context [ for_each ?l ?f ?w2 ] =>
      destruct (for_each_dichotomy l OUTPUT_DIR w2)
        as [[Hall (w' & Hrun)]|[Hex (e & w' & Hrun)]]
  end; rewrite Hrun; cbn.
  - split; [left; reflexivity|]. split; [|reflexivity].
    intros _. exists (item :: rest). auto.
  - split; [right; reflexivity|]. split; [discriminate|].
    intros (items' & Hopen' & Hall & _). exfalso.
    rewrite Hopen in Hopen'. injection Hopen' as <-.
    apply Exists_exists in Hex. destruct Hex as (r & Hin & Hr).
    rewrite Forall_forall in Hall. pose proof (Hall r Hin) as Hr'.
    change (is_fetch_request r = true) in Hr'. congruence.
Qed.

(** X6. From the point where [parse_args] has returned, with [args.config]
    the path it gave: the status [main] ends the process with is 0 or 1,
    and it is 0 exactly when the configuration file can be read, [json.load]
    returns a list on it, each element of the list is an object that has the
    three keys, and no regular file stands where the output directory goes.
    Failed fetches and failed saves do not change it. *)
Theorem main_exit_status (args_config : Path) (w : world) :
  (exit_status (main args_config w).1 = 0%Z \/
   exit_status (main args_config w).1 = 1%Z) /\
  (exit_status (main args_config w).1 = 0%Z <->
   exists text items,
     open_read (fs w) args_config = inr text /\
     json_load text = inr (JArr items) /\
     Forall (fun r => is_fetch_request r = true) items /\
     is_file (fs w) (output_loc (fs w)) = false).
Proof.
  destruct (main_status_by_text args_config w) as [Hrange Hzero].
  split; [exact Hrange|]. rewrite Hzero. split.
  - intros (items & Hopen & Hall & Hfile).
    exists (JsonText (JArr items)), items. auto.
  - intros (text & items & Hopen & Hjson & Hall & Hfile).
    exists items. split; [|auto].
    destruct text; try discriminate. injection Hjson as ->. exact Hopen.
Qed.

(** X7. For a fetch request the worker returns normally; the first line it
    adds to the log is the fetch line and the last one is its line about the
    outcome, which is one of three: the error line, naming the exception
    that the fetch, the sanitization or the save raised; the no-data
    warning, after a fetch that returned a frame without rows, with the
    file system as it was; or the saved line, after [to_csv] has written
    the fetched rows at the path the line names. *)
Theorem fetch_and_save_data_last_line
        (request : json) (output_dir : Path) (w : world) :
  is_fetch_request request = true ->
  exists w' ticker start end_ between last,
    py_getitem request "ticker" = inr ticker /\
    py_getitem request "start_date" = inr start /\
    py_getitem request "end_date" = inr end_ /\
    fetch_and_save_data request output_dir w = (Returns (), w') /\
    log w' = log w ++ (INFO, Fetching ticker start end_) :: between ++ [last] /\
    ((exists e,
         last = (ERROR, FetchOrSaveFailed ticker e) /\
         (history (calls w) ticker start end_ = inl e \/
          exists df,
            history (calls w) ticker start end_ = inr df /\ empty df = false /\
            (replace_dots ticker = inl e \/
             exists safe,
               replace_dots ticker = inr safe /\
               to_csv df (Path_div output_dir (csv_name safe start end_)) (fs w)
                 = inl e))) \/
     (exists df,
         last = (WARNING, NoDataFound ticker) /\
         history (calls w) ticker start end_ = inr df /\ empty df = true /\
         fs w' = fs w) \/
     (exists df safe,
         last = (INFO, SavedTo (Path_div output_dir (csv_name safe start end_))) /\
         history (calls w) ticker start end_ = inr df /\ empty df = false /\
         replace_dots ticker = inr safe /\
         to_csv df (Path_div output_dir (csv_name safe start end_)) (fs w)
           = inr (fs w'))).
Proof.
  intros Hreq.
  destruct (fetch_request_line request Hreq) as (t & s & e & Ht & Hs & He & _).
  rewrite (worker_run request output_dir w t s e Ht Hs He). cbn zeta.
  destruct (history (calls w) t s e) as [err|df] eqn:Hfetch.
  { eexists _, t, s, e, [], _. do 3 (split; [assumption|]).
    split; [reflexivity|]. simpl_world.
    split; [rewrite <- app_assoc; reflexivity|]. left. eauto. }
  destruct (empty df) eqn:Hempty.
  { eexists _, t, s, e, [], _. do 3 (split; [assumption|]).
    split; [reflexivity|]. simpl_world.
    split; [rewrite <- app_assoc; reflexivity|]. right. left. eauto. }
  destruct (replace_dots t) as [err|safe] eqn:Hsafe.
  { eexists _, t, s, e, [], _. do 3 (split; [assumption|]).
    split; [reflexivity|]. simpl_world.
    split; [rewrite <- app_assoc; reflexivity|]. left. eauto 10. }
  destruct (to_csv df _ (fs w)) as [err|fs'] eqn:Hcsv.
  { eexists _, t, s, e, [], _. do 3 (split; [assumption|]).
    split; [reflexivity|]. simpl_world.
    split; [rewrite <- app_assoc; reflexivity|]. left.
    eexists. split; [reflexivity|]. right. exists df.
    split; [assumption|]. split; [assumption|]. right. eauto. }
  eexists _, t, s, e, [], _. do 3 (split; [assumption|]).
  split; [reflexivity|]. simpl_world.
  split; [rewrite <- app_assoc; reflexivity|]. right. right.
  exists df, safe. split; [reflexivity|]. split; [assumption|].
  split; [assumption|]. split; [assumption | exact Hcsv].
Qed.

Lemma Path_parent_div_plain (dir : Path) (name : string) (fs0 : filesystem) :
  has_char slash name = false -> has_char underscore name = true ->
  locate fs0 (Path_parent (Path_div dir name)) = locate fs0 dir.
Proof.
  intros Hslash Hunder. rewrite (Path_div_plain dir name Hslash Hunder).
  unfold locate, base_of, Path_parent. cbn [anchored parts].
  rewrite removelast_last. reflexivity.
Qed.

(** X8. The worker never makes the output directory itself: when the
    directory it is given does not exist (or is not a directory), a fetch
    that returned rows ends in an [OSError] that is caught and logged, and
    the file system is left as it was. *)
Theorem fetch_and_save_data_needs_directory
        (request : json) (output_dir : Path) (w : world)
        (t : string) (start end_ : json) (df : DataFrame) :
  py_getitem request "ticker" = inr (JStr t) ->
  py_getitem request "start_date" = inr start ->
  py_getitem request "end_date" = inr end_ ->
  history (calls w) (JStr t) start end_ = inr df ->
  empty df = false ->
  has_char slash (csv_name (str_replace dot underscore t) start end_) = false ->
  (forall dloc, locate (fs w) output_dir = inr dloc -> is_dir (fs w) dloc = false) ->
  fetch_and_save_data request output_dir w =
    (Returns (),
     add_log (count_call (add_log w INFO (Fetching (JStr t) start end_)))
             ERROR (FetchOrSaveFailed (JStr t) OSError)) /\
  fs (fetch_and_save_data request output_dir w).2 = fs w.
Proof.
  intros Ht Hs He Hfetch Hrows Hslash Hnodir.
  assert (Hrun : fetch_and_save_data request output_dir w =
    (Returns (),
     add_log (count_call (add_log w INFO (Fetching (JStr t) start end_)))
             ERROR (FetchOrSaveFailed (JStr t) OSError))).
  { rewrite (worker_run request output_dir w (JStr t) start end_ Ht Hs He).
    cbn zeta. rewrite Hfetch, Hrows. cbn [replace_dots].
    unfold to_csv.
    rewrite (Path_parent_div_plain output_dir _ (fs w) Hslash
               (csv_name_underscore _ _ _)).
    destruct (locate (fs w) output_dir) as [e|dloc] eqn:Hloc; [reflexivity|].
    rewrite (Hnodir dloc eq_refl). reflexivity. }
  rewrite Hrun. split; reflexivity.
Qed.

(** X9. When a regular file stands where the output directory goes, the
    driver logs the failure and leaves with status 1 before any request is
    touched: no provider call is made and the file system is unchanged,
    whatever the configuration holds. *)
Theorem main_output_dir_blocked
        (args_config : Path) (w : world) (items : list json) :
  open_read (fs w) args_config = inr (JsonText (JArr items)) ->
  Forall accepted items ->
  is_file (fs w) (output_loc (fs w)) = true ->
  main args_config w =
    (Exits 1,
     add_log (add_log w INFO (LoadedRequests (List.length items) args_config))
             ERROR (MkdirFailed OUTPUT_DIR FileExistsError)) /\
  fs (main args_config w).2 = fs w /\
  calls (main args_config w).2 = calls w.
Proof.
  intros Hopen Hacc Hfile.
  pose proof (load_config_accepts args_config w items Hopen Hacc) as Hload.
  rewrite (main_mkdir_blocked args_config w _ items Hload Hfile).
  split; [reflexivity|]. split; reflexivity.
Qed.

(** ** What the worker can write *)

Lemma str_app_assoc (s1 s2 s3 : string) :
  ((s1 ++ s2) ++ s3 = s1 ++ (s2 ++ s3))%string.
Proof.
  induction s1 as [|c s1 IH]; [reflexivity|].
  change (String c ((s1 ++ s2) ++ s3) = String c (s1 ++ (s2 ++ s3)))%string.
  rewrite IH. reflexivity.
Qed.

(** Appending a text without separator only lengthens the last piece. *)
Lemma str_split_snoc (sep : ascii) (s1 s2 : string) :
  has_char sep s2 = false ->
  exists init lst,
    str_split sep s1 = init ++ [lst] /\
    str_split sep (s1 ++ s2) = init ++ [(lst ++ s2)%string].
Proof.
  intros Hplain. induction s1 as [|c s1 (init & lst & IH1 & IH2)].
  - exists [], EmptyString. split; [reflexivity|].
    exact (str_split_plain sep s2 Hplain).
  - change (String c s1 ++ s2)%string with (String c (s1 ++ s2)%string).
    cbn [str_split]. rewrite IH1, IH2.
    destruct (Ascii.eqb c sep).
    + exists (EmptyString :: init), lst. split; reflexivity.
    + destruct init as [|piece pieces]; cbn [app].
      * exists [], (String c lst). split; reflexivity.
      * exists (String c piece :: pieces), lst. split; reflexivity.
Qed.

(** The path of a CSV file ends in a component that ends in [".csv"]. *)
Lemma csv_path_last (dir : Path) (safe : string) (start end_ : json) :
  exists pre stem,
    parts (Path_div dir (csv_name safe start end_)) = pre ++ [(stem ++ ".csv")%string].
Proof.
  assert (Hname : exists body, csv_name safe start end_ = (body ++ ".csv")%string).
  { exists (safe ++ "_" ++ py_str start ++ "_to_" ++ py_str end_)%string.
    unfold csv_name. rewrite !str_app_assoc. reflexivity. }
  destruct Hname as [body ->].
  destruct (str_split_snoc slash body ".csv" eq_refl) as (init & stem & _ & Hsplit).
  assert (Hkeep : negb (String.eqb (stem ++ ".csv") "" || String.eqb (stem ++ ".csv") ".")
                  = true).
  { assert (Hc : has_char "c"%char (stem ++ ".csv") = true)
      by (rewrite has_char_app; apply orb_true_r).
    apply negb_true_iff, orb_false_iff.
    split; apply String.eqb_neq; intros Heq; rewrite Heq in Hc; discriminate. }
  unfold Path_div, Path_of. rewrite Hsplit, List.filter_app.
  cbn [List.filter]. rewrite Hkeep.
  destruct (String.prefix "/" (body ++ ".csv")); cbn [anchored parts].
  - eexists _, stem. reflexivity.
  - eexists _, stem. rewrite app_assoc. reflexivity.
Qed.

Lemma walk_last (fs0 : filesystem) (here pre loc : list string) (final : string) :
  String.eqb final ".." = false ->
  walk fs0 here (pre ++ [final]) = inr loc ->
  exists mid, loc = mid ++ [final].
Proof.
  intros Hfinal. rewrite walk_app.
  destruct (walk fs0 here pre) as [e|mid]; [discriminate|].
  cbn [walk]. destruct (has_char nul final); [discriminate|].
  rewrite Hfinal. intros [= <-]. eauto.
Qed.

(** A call of the worker leaves the file system alone unless it ends by a
    successful [to_csv] on the path of a CSV file. *)
Lemma worker_fs_change (request : json) (output_dir : Path) (w : world) :
  fs (fetch_and_save_data request output_dir w).2 = fs w \/
  exists safe start end_ df,
    to_csv df (Path_div output_dir (csv_name safe start end_)) (fs w)
      = inr (fs (fetch_and_save_data request output_dir w).2).
Proof.
  destruct (is_fetch_request request) eqn:Hreq.
  2:{ destruct (worker_bad_item request output_dir w Hreq) as (e & -> & _).
      left. reflexivity. }
  destruct (fetch_request_line request Hreq) as (t & s & e & Ht & Hs & He & _).
  rewrite (worker_run request output_dir w t s e Ht Hs He). cbn zeta.
  destruct (history (calls w) t s e) as [err|df]; [left; reflexivity|].
  destruct (empty df); [left; reflexivity|].
  destruct (replace_dots t) as [err|safe]; [left; reflexivity|].
  destruct (to_csv df _ (fs w)) as [err|fs'] eqn:Hcsv; [left; reflexivity|].
  right. exists safe, s, e, df. exact Hcsv.
Qed.

(** The one location a call of the worker can change. *)
Lemma worker_change_shape
        (request : json) (output_dir : Path) (w : world) :
  fs (fetch_and_save_data request output_dir w).2 = fs w \/
  exists dir stem df,
    let saved := dir ++ [(stem ++ ".csv")%string] in
    fs (fetch_and_save_data request output_dir w).2 =
      fs_put (fs w) saved (File (CsvText df)) /\
    is_dir (fs w) saved = false /\
    (forall loc, loc <> saved ->
       fs_lookup (fs (fetch_and_save_data request output_dir w).2) loc
       = fs_lookup (fs w) loc).
Proof.
  destruct (worker_fs_change request output_dir w)
    as [Hsame|(safe & start & end_ & df & Hcsv)]; [left; exact Hsame|].
  right. apply to_csv_inr in Hcsv.
  destruct Hcsv as (dloc & loc & _ & _ & Hloc & Hfree & Hfs).
  destruct (csv_path_last output_dir safe start end_) as (pre & stem & Hparts).
  unfold locate in Hloc. rewrite Hparts in Hloc.
  assert (Hfinal : String.eqb (stem ++ ".csv") ".." = false).
  { apply String.eqb_neq. intros Heq.
    assert (Hc : has_char "c"%char (stem ++ ".csv") = true)
      by (rewrite has_char_app; apply orb_true_r).
    rewrite Heq in Hc. discriminate. }
  destruct (walk_last _ _ _ _ _ Hfinal Hloc) as [mid ->].
  exists mid, stem, df. cbn zeta.
  split; [exact Hfs|]. split; [exact Hfree|].
  intros loc Hne. rewrite Hfs. apply fs_lookup_put_other. congruence.
Qed.

(** X10. Whatever it is called on, the worker changes at most one location
    of the file system, one whose name ends in [".csv"], and it takes no
    directory away: every other location, and so every file with another
    name (the configuration file among them), is left as it was, and what
    was a directory still is one. *)
Theorem fetch_and_save_data_frame
        (request : json) (output_dir : Path) (w : world) :
  exists dir stem,
    (forall loc, loc <> dir ++ [(stem ++ ".csv")%string] ->
       fs_lookup (fs (fetch_and_save_data request output_dir w).2) loc
       = fs_lookup (fs w) loc) /\
    (forall loc, is_dir (fs w) loc = true ->
       is_dir (fs (fetch_and_save_data request output_dir w).2) loc = true).
Proof.
  destruct (worker_change_shape request output_dir w)
    as [Hsame|(dir & stem & df & _ & Hfree & Hother)].
  - exists [], EmptyString. rewrite Hsame. auto.
  - exists dir, stem. split; [exact Hother|].
    intros loc Hdir. unfold is_dir. rewrite Hother; [exact Hdir|].
    intros ->. cbn zeta in Hfree. congruence.
Qed.

(** X11. Two requests that lead to the same file name share one file: the
    second save replaces the first, and the file system ends up as if only
    the second fetch had been saved.  This is what happens to a request
    listed twice. *)
Theorem same_name_overwrites
        (first second : json) (w : world)
        (t1 t2 : string) (start1 end1 start2 end2 : json) (df1 df2 : DataFrame) :
  py_getitem first "ticker" = inr (JStr t1) ->
  py_getitem first "start_date" = inr start1 ->
  py_getitem first "end_date" = inr end1 ->
  py_getitem second "ticker" = inr (JStr t2) ->
  py_getitem second "start_date" = inr start2 ->
  py_getitem second "end_date" = inr end2 ->
  history (calls w) (JStr t1) start1 end1 = inr df1 -> empty df1 = false ->
  history (S (calls w)) (JStr t2) start2 end2 = inr df2 -> empty df2 = false ->
  let name := csv_name (str_replace dot underscore t1) start1 end1 in
  csv_name (str_replace dot underscore t2) start2 end2 = name ->
  plain_name name = true ->
  is_dir (fs w) (output_loc (fs w)) = true ->
  is_dir (fs w) (output_loc (fs w) ++ [name]) = false ->
  exists w',
    for_each [first; second] (fun r => fetch_and_save_data r OUTPUT_DIR) w
      = (Returns (), w') /\
    fs w' = fs_put (fs w) (output_loc (fs w) ++ [name]) (File (CsvText df2)) /\
    file_at (fs w') (output_loc (fs w) ++ [name]) = Some (CsvText df2).
Proof.
  intros Ht1 Hs1 He1 Ht2 Hs2 He2 Hf1 Hr1 Hf2 Hr2 name Hsame Hplain Hdir Hfree.
  cbn [for_each]. unfold mbind, M_bind.
  rewrite (worker_run first OUTPUT_DIR w (JStr t1) start1 end1 Ht1 Hs1 He1).
  cbn zeta. rewrite Hf1, Hr1. cbn [replace_dots]. fold name.
  rewrite (to_csv_plain df1 OUTPUT_DIR name (fs w) (output_loc (fs w))
             (locate_output_dir _) Hdir Hplain (csv_name_underscore _ _ _) Hfree).
  rewrite (worker_run second OUTPUT_DIR _ (JStr t2) start2 end2 Ht2 Hs2 He2).
  cbn zeta. simpl_world. rewrite Hf2, Hr2. cbn [replace_dots]. rewrite Hsame.
  set (saved := output_loc (fs w) ++ [name]).
  set (fs1 := fs_put (fs w) saved (File (CsvText df1))).
  assert (Hdir1 : is_dir fs1 (output_loc (fs w)) = true)
    by (apply is_dir_put; assumption).
  assert (Hfree1 : is_dir fs1 saved = false).
  { unfold is_dir, fs1. rewrite fs_lookup_put_same by exact Hfree. reflexivity. }
  rewrite (to_csv_plain df2 OUTPUT_DIR name fs1 (output_loc (fs w))
             (locate_output_dir _) Hdir1 Hplain (csv_name_underscore _ _ _) Hfree1).
  fold saved.
  eexists. split; [reflexivity|]. simpl_world.
  assert (Hfs : fs_put fs1 saved (File (CsvText df2)) =
                fs_put (fs w) saved (File (CsvText df2))).
  { unfold fs1, fs_put. cbn [cwd nodes]. rewrite insert_insert_eq. reflexivity. }
  split; [exact Hfs|].
  rewrite Hfs, file_at_put by exact Hfree. case_decide; congruence.
Qed.

(** X12. The sanitization is idempotent and is the identity on a ticker
    without ['.'], so a ticker with a ['.'] and its sanitized form are two
    different tickers with the same file name. *)
Theorem sanitized_names_collide (t : string) (start end_ : json) :
  str_replace dot underscore (str_replace dot underscore t)
    = str_replace dot underscore t /\
  (has_char dot t = false -> str_replace dot underscore t = t) /\
  (has_char dot t = true ->
   str_replace dot underscore t <> t /\
   csv_name (str_replace dot underscore (str_replace dot underscore t)) start end_
     = csv_name (str_replace dot underscore t) start end_).
Proof.
  assert (Hid : forall s, has_char dot s = false -> str_replace dot underscore s = s).
  { induction s as [|c s IH]; cbn; [reflexivity|].
    intros H. apply orb_false_iff in H. destruct H as [Hc Hs].
    rewrite Hc, (IH Hs). reflexivity. }
  assert (Hidem : str_replace dot underscore (str_replace dot underscore t)
                  = str_replace dot underscore t).
  { apply Hid. apply str_replace_removes. discriminate. }
  split; [exact Hidem|]. split; [apply Hid|].
  intros Hdot. split; [|rewrite Hidem; reflexivity].
  intros Heq.
  pose proof (str_replace_removes dot underscore t) as Hnone.
  rewrite Heq in Hnone. rewrite Hnone in Hdot; [discriminate | discriminate].
Qed.

(** X13. A ticker that starts with the path separator makes the file name
    an absolute path: the output directory is dropped from the path the
    frame is saved at. *)
Theorem absolute_ticker_drops_output_dir
        (output_dir : Path) (rest : string) (start end_ : json) :
  let name := csv_name (str_replace dot underscore (String slash rest)) start end_ in
  Path_div output_dir name = Path_of name /\
  anchored (Path_div output_dir name) = true.
Proof.
  cbn zeta.
  assert (Hprefix : String.prefix "/"
            (csv_name (str_replace dot underscore (String slash rest)) start end_)
          = true).
  { unfold csv_name. cbn [str_replace].
    change (Ascii.eqb slash dot) with false. cbv iota.
    change (String slash (str_replace dot underscore rest) ++ "_" ++ py_str start
              ++ "_to_" ++ py_str end_ ++ ".csv")%string
      with (String slash (str_replace dot underscore rest ++ "_" ++ py_str start
              ++ "_to_" ++ py_str end_ ++ ".csv")%string).
    match goal with
    | |- String.prefix "/" (String slash ?x) = true =>
        change (String.prefix "/" (String slash x))
          with (if ascii_dec "/"%char slash then String.prefix "" x else false)
    end.
    destruct (ascii_dec "/"%char slash) as [_|Hne];
      [destruct (_ ++ _)%string; reflexivity | exfalso; apply Hne; reflexivity]. }
  unfold Path_div.
  assert (Hanch : anchored (Path_of
            (csv_name (str_replace dot underscore (String slash rest)) start end_))
          = true) by exact Hprefix.
  rewrite Hanch. split; [reflexivity | exact Hanch].
Qed.

(** ** What the driver can change, and what the validation accepts *)

Lemma worker_keeps_other (request : json) (output_dir : Path) (w : world)
      (loc : list string) :
  (forall dir stem, loc <> dir ++ [(stem ++ ".csv")%string]) ->
  fs_lookup (fs (fetch_and_save_data request output_dir w).2) loc
  = fs_lookup (fs w) loc.
Proof.
  intros Hloc.
  destruct (worker_change_shape request output_dir w)
    as [->|(dir & stem & df & _ & _ & Hother)]; [reflexivity|].
  apply Hother, Hloc.
Qed.

Lemma for_each_keeps_other (items : list json) (output_dir : Path) (w : world)
      (loc : list string) :
  (forall dir stem, loc <> dir ++ [(stem ++ ".csv")%string]) ->
  fs_lookup
    (fs (for_each items (fun r => fetch_and_save_data r output_dir) w).2) loc
  = fs_lookup (fs w) loc.
Proof.
  intros Hloc. revert w.
  induction items as [|item rest IH]; intros w; [reflexivity|].
  cbn [for_each]. unfold mbind, M_bind.
  pose proof (worker_keeps_other item output_dir w loc Hloc) as Hstep.
  destruct (fetch_and_save_data item output_dir w) as [[[]|e|code] w1];
    cbn [snd] in *; try exact Hstep.
  rewrite IH. exact Hstep.
Qed.

(** X14. A whole run of the driver changes nothing in the file system but
    the output directory and files whose names end in [".csv"]: every
    other location holds after the run what it held before.  In particular
    a configuration file called [config.json] is never overwritten. *)
Theorem main_frame (args_config : Path) (w : world) (loc : list string) :
  loc <> output_loc (fs w) ->
  (forall dir stem, loc <> dir ++ [(stem ++ ".csv")%string]) ->
  fs_lookup (fs (main args_config w).2) loc = fs_lookup (fs w) loc.
Proof.
  intros Hout Hcsv.
  destruct (load_config_cases args_config w)
    as [[msg Hexit]|(items & _ & _ & Hload)].
  { rewrite (main_load_exits _ _ _ _ Hexit). reflexivity. }
  destruct (is_file (fs w) (output_loc (fs w))) eqn:Hfile.
  { rewrite (main_mkdir_blocked args_config w _ items Hload Hfile). reflexivity. }
  destruct (mkdir_output_dir_ok (fs w) Hfile) as (fs2 & Hmk & _ & _ & Hother & _).
  rewrite (main_after_load args_config w _ items fs2 Hload Hmk).
  destruct items as [|item rest].
  { cbn. apply Hother, Hout. }
  unfold mbind, M_bind.
  match goal with
  | |- context [ for_each ?l ?f ?w2 ] =>
      pose proof (for_each_keeps_other l OUTPUT_DIR w2 loc Hcsv) as Hloop;
      destruct (for_each l f w2) as [[[]|e|code] w3]
  end; cbn [snd] in Hloop; unfold logging; cbn [snd]; simpl_world;
    rewrite Hloop; apply Hother, Hout.
Qed.

Lemma all_keys_in_true (keys : list string) (item : json) :
  all_keys_in keys item = inr true <->
  forall key, In key keys -> py_in key item = inr true.
Proof.
  induction keys as [|k ks IH]; cbn [all_keys_in].
  - split; [intros _ key [] | reflexivity].
  - destruct (py_in k item) as [e|[|]] eqn:Hk.
    + split; [discriminate|]. intros H.
      specialize (H k (or_introl eq_refl)). congruence.
    + rewrite IH. split.
      * intros H key [<-|Hin]; [exact Hk | apply H, Hin].
      * intros H key Hin. apply H. right. exact Hin.
    + split; [discriminate|]. intros H.
      specialize (H k (or_introl eq_refl)). congruence.
Qed.

(** X15. What the validation of [load_config] accepts, in full: an object
    that has the three keys, a list that has the three names among its
    elements, and a string that has the three names as substrings.  A
    number, a boolean and [null] are never accepted. *)
Theorem accepted_characterised (item : json) :
  accepted item <->
  match item with
  | JObj fields =>
      forall key, In key REQUIRED_KEYS -> exists v, dict_get key fields = Some v
  | JArr items => forall key, In key REQUIRED_KEYS -> In (JStr key) items
  | JStr s => forall key, In key REQUIRED_KEYS -> substring_of key s = true
  | JNull | JBool _ | JInt _ | JFloat _ => False
  end.
Proof.
  unfold accepted. rewrite all_keys_in_true.
  destruct item; cbn [py_in];
    try (split; [intros H; specialize (H "ticker" (or_introl eq_refl)); discriminate
                | intros []]).
  - split; intros H key Hin; specialize (H key Hin); congruence.
  - split; intros H key Hin; specialize (H key Hin).
    + injection H as H. apply existsb_exists in H.
      destruct H as (x & Hx & Heq). destruct x; try discriminate.
      apply String.eqb_eq in Heq. subst. exact Hx.
    + f_equal. apply existsb_exists. exists (JStr key).
      split; [exact H | apply String.eqb_refl].
  - split; intros H key Hin; specialize (H key Hin).
    + injection H as H. apply dict_has_get. exact H.
    + f_equal. apply dict_has_get. exact H.
Qed.

(** ** A run that fetches nothing *)

Lemma worker_no_rows (request : json) (output_dir : Path) (w : world) :
  (forall n ticker start end_ df,
      history n ticker start end_ = inr df -> empty df = true) ->
  fs (fetch_and_save_data request output_dir w).2 = fs w.
Proof.
  intros Hnone.
  destruct (is_fetch_request request) eqn:Hreq.
  2:{ destruct (worker_bad_item request output_dir w Hreq) as (e & -> & _).
      reflexivity. }
  destruct (fetch_request_line request Hreq) as (t & s & e & Ht & Hs & He & _).
  rewrite (worker_run request output_dir w t s e Ht Hs He). cbn zeta.
  destruct (history (calls w) t s e) as [err|df] eqn:Hfetch; [reflexivity|].
  rewrite (Hnone _ _ _ _ _ Hfetch). reflexivity.
Qed.

Lemma for_each_no_rows (items : list json) (output_dir : Path) (w : world) :
  (forall n ticker start end_ df,
      history n ticker start end_ = inr df -> empty df = true) ->
  fs (for_each items (fun r => fetch_and_save_data r output_dir) w).2 = fs w.
Proof.
  intros Hnone. revert w.
  induction items as [|item rest IH]; intros w; [reflexivity|].
  cbn [for_each]. unfold mbind, M_bind.
  pose proof (worker_no_rows item output_dir w Hnone) as Hstep.
  destruct (fetch_and_save_data item output_dir w) as [[[]|e|code] w1];
    cbn [snd] in *; try exact Hstep.
  rewrite IH. exact Hstep.
Qed.

(** X16. When the provider has no rows for anything (every fetch raises or
    comes back empty), a run of the driver leaves no file behind: the only
    thing it can have changed is the output directory, and when that
    directory was already there the file system is exactly what it was. *)
Theorem main_without_rows (args_config : Path) (w : world) :
  (forall n ticker start end_ df,
      history n ticker start end_ = inr df -> empty df = true) ->
  (forall loc, loc <> output_loc (fs w) ->
     fs_lookup (fs (main args_config w).2) loc = fs_lookup (fs w) loc) /\
  (is_dir (fs w) (output_loc (fs w)) = true ->
   fs (main args_config w).2 = fs w).
Proof.
  intros Hnone.
  destruct (load_config_cases args_config w)
    as [[msg Hexit]|(items & _ & _ & Hload)].
  { rewrite (main_load_exits _ _ _ _ Hexit). split; reflexivity. }
  destruct (is_file (fs w) (output_loc (fs w))) eqn:Hfile.
  { rewrite (main_mkdir_blocked args_config w _ items Hload Hfile).
    split; reflexivity. }
  assert (Hrun : exists fs2,
             Path_mkdir (fs w) OUTPUT_DIR = inr fs2 /\
             fs (main args_config w).2 = fs2).
  { destruct (mkdir_output_dir_ok (fs w) Hfile) as (fs2 & Hmk & _).
    exists fs2. split; [exact Hmk|].
    rewrite (main_after_load args_config w _ items fs2 Hload Hmk).
    destruct items as [|item rest]; [reflexivity|].
    unfold mbind, M_bind.
    match goal with
    | |- context [ for_each ?l ?f ?w2 ] =>
        pose proof (for_each_no_rows l OUTPUT_DIR w2 Hnone) as Hloop;
        destruct (for_each l f w2) as [[[]|e|code] w3]
    end; cbn [snd] in Hloop; unfold logging; cbn [snd]; simpl_world;
      exact Hloop. }
  destruct Hrun as (fs2 & Hmk & ->). split.
  - destruct (mkdir_output_dir_ok (fs w) Hfile) as (fs2' & Hmk' & _ & _ & Hother & _).
    rewrite Hmk in Hmk'. injection Hmk' as <-. exact Hother.
  - intros Hdir. rewrite mkdir_output_dir in Hmk. unfold is_dir in Hdir.
    destruct (fs_lookup (fs w) (output_loc (fs w))) as [[|c]|]; try discriminate.
    injection Hmk as <-. reflexivity.
Qed.

End Program.

(** ** The properties at sample inputs *)

(** C2, at the input where the code leaves it.  A configuration whose only
    element is the string ["ticker start_date end_date"] has an element
    with none of the three keys, yet [load_config] reports one request
    loaded and returns the list; the process then makes the output
    directory and dies in the worker on an uncaught [TypeError]. *)
Theorem load_config_accepts_string_item :
  has_key "ticker" string_item = false /\
  is_fetch_request string_item = false /\
  load_config DEFAULT_CONFIG (sample_world (JsonText (JArr [string_item]))) =
    (Returns [string_item],
     add_log (sample_world (JsonText (JArr [string_item])))
             INFO (LoadedRequests 1 DEFAULT_CONFIG)) /\
  forall history str_other,
    (main history str_other DEFAULT_CONFIG
          (sample_world (JsonText (JArr [string_item])))).1 = Raises TypeError /\
    is_dir (fs (main history str_other DEFAULT_CONFIG
                     (sample_world (JsonText (JArr [string_item])))).2)
           sample_output_loc = true.
Proof.
  split; [reflexivity|]. split; [reflexivity|].
  split; [vm_compute; reflexivity|].
  intros history str_other. split; vm_compute; reflexivity.
Qed.

(** C6, at the input where the code leaves it.  In the ticker [BRK/B] the
    separator, which no file name can hold, is still there after the
    sanitization: only ['.'] is replaced.  The derived path then points
    into a directory [historical_data/BRK] that nobody made, the save
    fails, and no file is written although the fetch returned rows. *)
Theorem replace_dots_keeps_separator :
  filename_invalid slash = true /\
  replace_dots (JStr "BRK/B") = inr "BRK/B" /\
  has_char slash "BRK/B" = true /\
  Path_div OUTPUT_DIR
           (csv_name unused_str "BRK/B" (JStr "2020-01-01") (JStr "2020-12-31")) =
    {| anchored := false;
       parts := ["historical_data"; "BRK"; "B_2020-01-01_to_2020-12-31.csv"] |} /\
  main always_rows unused_str DEFAULT_CONFIG
       (sample_world (JsonText (JArr [slash_request]))) =
    (Returns (),
     {| fs := sample_fs_with_dir (JsonText (JArr [slash_request]));
        log := [(INFO, LoadedRequests 1 DEFAULT_CONFIG);
                (INFO, OutputDirSet OUTPUT_DIR);
                (INFO, Fetching (JStr "BRK/B") (JStr "2020-01-01") (JStr "2020-12-31"));
                (ERROR, FetchOrSaveFailed (JStr "BRK/B") OSError);
                (INFO, AllComplete)];
        calls := 1 |}).
Proof.
  repeat split; vm_compute; reflexivity.
Qed.

(** C4 as stated fails: a fetch can return rows and no file be created.
    When a directory stands where the file should go the save ends in a
    caught [IsADirectoryError]; when the output directory handed to the
    worker does not exist the save ends in a caught [OSError]; and since
    the dates of a request go into the file name as they are, with the
    dates written [2020/01/01] the name is a path into directories nobody
    made, and the save ends in a caught [OSError] as well.  The worker
    returns normally each time, after the error line, and no file has been
    created. *)
Lemma fetch_and_save_data_rows_without_file :
  always_rows 0 (JStr "BRK.B") (JStr "2020-01-01") (JStr "2020-12-31") = inr sample_rows /\
  always_rows 0 (JStr "AAPL") (JStr "2020/01/01") (JStr "2020/12/31") = inr sample_rows /\
  empty sample_rows = false /\
  (is_dir (fs (sample_world_dir_at_target BadText)) sample_output_loc = true /\
   is_dir (fs (sample_world_dir_at_target BadText)) sample_saved_loc = true /\
   fetch_and_save_data always_rows unused_str brk_request OUTPUT_DIR
                       (sample_world_dir_at_target BadText) =
     (Returns (),
      add_log (count_call
                 (add_log (sample_world_dir_at_target BadText) INFO
                    (Fetching (JStr "BRK.B") (JStr "2020-01-01") (JStr "2020-12-31"))))
              ERROR (FetchOrSaveFailed (JStr "BRK.B") IsADirectoryError)) /\
   forall loc,
     file_at (fs (fetch_and_save_data always_rows unused_str brk_request OUTPUT_DIR
                                      (sample_world_dir_at_target BadText)).2) loc
     = file_at (fs (sample_world_dir_at_target BadText)) loc) /\
  (is_dir (fs (sample_world BadText)) sample_output_loc = false /\
   fetch_and_save_data always_rows unused_str brk_request OUTPUT_DIR
                       (sample_world BadText) =
     (Returns (),
      add_log (count_call
                 (add_log (sample_world BadText) INFO
                    (Fetching (JStr "BRK.B") (JStr "2020-01-01") (JStr "2020-12-31"))))
              ERROR (FetchOrSaveFailed (JStr "BRK.B") OSError)) /\
   forall loc,
     file_at (fs (fetch_and_save_data always_rows unused_str brk_request OUTPUT_DIR
                                      (sample_world BadText)).2) loc
     = file_at (fs (sample_world BadText)) loc) /\
  (is_dir (fs (sample_world_with_dir BadText)) sample_output_loc = true /\
   fetch_and_save_data always_rows unused_str slash_date_request OUTPUT_DIR
                       (sample_world_with_dir BadText) =
     (Returns (),
      add_log (count_call
                 (add_log (sample_world_with_dir BadText) INFO
                    (Fetching (JStr "AAPL") (JStr "2020/01/01") (JStr "2020/12/31"))))
              ERROR (FetchOrSaveFailed (JStr "AAPL") OSError)) /\
   forall loc,
     file_at (fs (fetch_and_save_data always_rows unused_str slash_date_request
                                      OUTPUT_DIR (sample_world_with_dir BadText)).2) loc
     = file_at (fs (sample_world_with_dir BadText)) loc).
Proof.
  assert (Hdir : fetch_and_save_data always_rows unused_str brk_request OUTPUT_DIR
                   (sample_world_dir_at_target BadText) =
                 (Returns (),
                  add_log (count_call
                             (add_log (sample_world_dir_at_target BadText) INFO
                                (Fetching (JStr "BRK.B") (JStr "2020-01-01")
                                          (JStr "2020-12-31"))))
                          ERROR (FetchOrSaveFailed (JStr "BRK.B") IsADirectoryError)))
    by (vm_compute; reflexivity).
  assert (Hmissing : fetch_and_save_data always_rows unused_str brk_request OUTPUT_DIR
                       (sample_world BadText) =
                     (Returns (),
                      add_log (count_call
                                 (add_log (sample_world BadText) INFO
                                    (Fetching (JStr "BRK.B") (JStr "2020-01-01")
                                              (JStr "2020-12-31"))))
                              ERROR (FetchOrSaveFailed (JStr "BRK.B") OSError)))
    by (vm_compute; reflexivity).
  assert (Hdates : fetch_and_save_data always_rows unused_str slash_date_request
                     OUTPUT_DIR (sample_world_with_dir BadText) =
                   (Returns (),
                    add_log (count_call
                               (add_log (sample_world_with_dir BadText) INFO
                                  (Fetching (JStr "AAPL") (JStr "2020/01/01")
                                            (JStr "2020/12/31"))))
                            ERROR (FetchOrSaveFailed (JStr "AAPL") OSError)))
    by (vm_compute; reflexivity).
  split; [reflexivity|]. split; [reflexivity|]. split; [reflexivity|].
  split; [|split].
  - split; [vm_compute; reflexivity|]. split; [vm_compute; reflexivity|].
    split; [exact Hdir|]. intros loc. rewrite Hdir. reflexivity.
  - split; [vm_compute; reflexivity|].
    split; [exact Hmissing|]. intros loc. rewrite Hmissing. reflexivity.
  - split; [vm_compute; reflexivity|].
    split; [exact Hdates|]. intros loc. rewrite Hdates. reflexivity.
Qed.

(** C7 as stated fails: a load can succeed and return a request whose three
    fields are all the empty string. *)
Lemma load_config_returns_blank_fields :
  exists requests w',
    load_config DEFAULT_CONFIG (sample_world (JsonText (JArr [blank_request]))) =
      (Returns requests, w') /\
    ~ Forall (fun request => request_invariant request = true) requests.
Proof.
  eexists _, _. split; [vm_compute; reflexivity|].
  intros H. apply Forall_cons in H. destruct H as [H _].
  vm_compute in H. discriminate.
Qed.

(** ** The theorems at work on sample inputs *)

(** C3 on a configuration that lists the same request twice. *)
Lemma load_config_preserves_requests_witness :
  open_read (fs (sample_world (JsonText (JArr [brk_request; brk_request]))))
            DEFAULT_CONFIG = inr (JsonText (JArr [brk_request; brk_request])) /\
  Forall (fun item => is_fetch_request item = true) [brk_request; brk_request] /\
  exists requests w',
    load_config DEFAULT_CONFIG
                (sample_world (JsonText (JArr [brk_request; brk_request]))) =
      (Returns requests, w') /\
    requests = [brk_request; brk_request].
Proof.
  assert (Hopen : open_read (fs (sample_world (JsonText (JArr [brk_request; brk_request]))))
                            DEFAULT_CONFIG
                  = inr (JsonText (JArr [brk_request; brk_request])))
    by (vm_compute; reflexivity).
  assert (Hall : Forall (fun item => is_fetch_request item = true)
                        [brk_request; brk_request])
    by (repeat constructor).
  split; [exact Hopen|]. split; [exact Hall|].
  destruct (load_config_preserves_requests _ _ _ Hopen Hall)
    as (requests & w' & Hrun & Heq & _).
  exists requests, w'. split; [exact Hrun | exact Heq].
Defined.

(** C7, as amended, on a configuration whose request has blank fields. *)
Lemma load_config_returns_keyed_witness :
  load_config DEFAULT_CONFIG (sample_world (JsonText (JArr [blank_request]))) =
    (Returns [blank_request],
     add_log (sample_world (JsonText (JArr [blank_request])))
             INFO (LoadedRequests 1 DEFAULT_CONFIG)) /\
  exists v,
    dict_get "ticker" [("ticker", JStr ""); ("start_date", JStr "");
                       ("end_date", JStr "")] = Some v.
Proof.
  assert (Hload : load_config DEFAULT_CONFIG
                              (sample_world (JsonText (JArr [blank_request]))) =
                  (Returns [blank_request],
                   add_log (sample_world (JsonText (JArr [blank_request])))
                           INFO (LoadedRequests 1 DEFAULT_CONFIG)))
    by (vm_compute; reflexivity).
  split; [exact Hload|].
  apply (proj2 (load_config_returns_keyed _ _ _ _ Hload)).
  - left. reflexivity.
  - left. reflexivity.
Defined.

(** C8 on a working directory without [missing.json]. *)
Lemma main_missing_config_witness :
  Path_exists (fs (sample_world BadText)) (Path_of "missing.json") = false /\
  main always_rows unused_str (Path_of "missing.json") (sample_world BadText) =
    (Exits 1,
     add_log (sample_world BadText) ERROR (ConfigNotFound (Path_of "missing.json"))).
Proof.
  assert (Hmiss : Path_exists (fs (sample_world BadText)) (Path_of "missing.json")
                  = false)
    by (vm_compute; reflexivity).
  split; [exact Hmiss|].
  exact (proj1 (main_missing_config always_rows unused_str _ _ Hmiss)).
Defined.

(** C9 on a configuration that holds the empty list. *)
Lemma main_empty_config_witness :
  open_read (fs (sample_world (JsonText (JArr [])))) DEFAULT_CONFIG =
    inr (JsonText (JArr [])) /\
  is_file (fs (sample_world (JsonText (JArr []))))
          (output_loc (fs (sample_world (JsonText (JArr []))))) = false /\
  exists w',
    main always_rows unused_str DEFAULT_CONFIG (sample_world (JsonText (JArr []))) =
      (Returns (), w') /\
    calls w' = 0.
Proof.
  assert (Hopen : open_read (fs (sample_world (JsonText (JArr [])))) DEFAULT_CONFIG
                  = inr (JsonText (JArr [])))
    by (vm_compute; reflexivity).
  assert (Hfree : is_file (fs (sample_world (JsonText (JArr []))))
                          (output_loc (fs (sample_world (JsonText (JArr []))))) = false)
    by (vm_compute; reflexivity).
  split; [exact Hopen|]. split; [exact Hfree|].
  destruct (main_empty_config always_rows unused_str _ _ Hopen Hfree)
    as (w' & Hrun & _ & _ & _ & Hcalls & _).
  exists w'. split; [exact Hrun | exact Hcalls].
Defined.

(** C10 on a configuration that holds the empty list. *)
Lemma main_creates_output_dir_witness :
  load_config DEFAULT_CONFIG (sample_world (JsonText (JArr []))) =
    (Returns [],
     add_log (sample_world (JsonText (JArr []))) INFO (LoadedRequests 0 DEFAULT_CONFIG)) /\
  is_file (fs (sample_world (JsonText (JArr []))))
          (output_loc (fs (sample_world (JsonText (JArr []))))) = false /\
  exists o w' lines,
    main never_rows unused_str DEFAULT_CONFIG (sample_world (JsonText (JArr []))) =
      (o, w') /\
    is_dir (fs w') sample_output_loc = true /\
    log w' = log (add_log (sample_world (JsonText (JArr []))) INFO
                          (LoadedRequests 0 DEFAULT_CONFIG))
             ++ (INFO, OutputDirSet OUTPUT_DIR) :: lines.
Proof.
  assert (Hload : load_config DEFAULT_CONFIG (sample_world (JsonText (JArr []))) =
                  (Returns [],
                   add_log (sample_world (JsonText (JArr []))) INFO
                           (LoadedRequests 0 DEFAULT_CONFIG)))
    by (vm_compute; reflexivity).
  assert (Hfree : is_file (fs (sample_world (JsonText (JArr []))))
                          (output_loc (fs (sample_world (JsonText (JArr []))))) = false)
    by (vm_compute; reflexivity).
  split; [exact Hload|]. split; [exact Hfree|].
  destruct (main_creates_output_dir never_rows unused_str _ _ _ _ Hload Hfree)
    as (o & w' & lines & Hrun & Hdir & Hlog & _).
  exists o, w', lines. split; [exact Hrun|]. split; [exact Hdir | exact Hlog].
Defined.

(** C4, as amended, on [brk_request], once with a provider that has no rows
    and once with one that has. *)
Lemma fetch_and_save_data_plain_rows_witness :
  (never_rows (calls (sample_world_with_dir BadText))
              (JStr "BRK.B") (JStr "2020-01-01") (JStr "2020-12-31") = inr [] /\
   empty [] = true /\
   exists w',
     fetch_and_save_data never_rows unused_str brk_request OUTPUT_DIR
                         (sample_world_with_dir BadText) = (Returns (), w') /\
     fs w' = fs (sample_world_with_dir BadText)) /\
  (always_rows (calls (sample_world_with_dir BadText))
               (JStr "BRK.B") (JStr "2020-01-01") (JStr "2020-12-31") = inr sample_rows /\
   empty sample_rows = false /\
   plain_name "BRK_B_2020-01-01_to_2020-12-31.csv" = true /\
   locate (fs (sample_world_with_dir BadText)) OUTPUT_DIR = inr sample_output_loc /\
   is_dir (fs (sample_world_with_dir BadText)) sample_output_loc = true /\
   is_dir (fs (sample_world_with_dir BadText)) sample_saved_loc = false /\
   exists w',
     fetch_and_save_data always_rows unused_str brk_request OUTPUT_DIR
                         (sample_world_with_dir BadText) = (Returns (), w') /\
     file_at (fs w') sample_saved_loc = Some (CsvText sample_rows)).
Proof.
  split.
  - split; [reflexivity|]. split; [reflexivity|].
    destruct (proj1 (fetch_and_save_data_plain_rows
                       never_rows unused_str brk_request OUTPUT_DIR
                       (sample_world_with_dir BadText)
                       (JStr "BRK.B") (JStr "2020-01-01") (JStr "2020-12-31") []
                       eq_refl eq_refl eq_refl eq_refl) eq_refl)
      as (w' & Hrun & Hfs & _).
    exists w'. split; [exact Hrun | exact Hfs].
  - assert (Hplain : plain_name "BRK_B_2020-01-01_to_2020-12-31.csv" = true)
      by (vm_compute; reflexivity).
    assert (Hdloc : locate (fs (sample_world_with_dir BadText)) OUTPUT_DIR
                    = inr sample_output_loc)
      by (vm_compute; reflexivity).
    assert (Hdir : is_dir (fs (sample_world_with_dir BadText)) sample_output_loc = true)
      by (vm_compute; reflexivity).
    assert (Hfree : is_dir (fs (sample_world_with_dir BadText)) sample_saved_loc = false)
      by (vm_compute; reflexivity).
    split; [reflexivity|]. split; [reflexivity|]. split; [exact Hplain|].
    split; [exact Hdloc|]. split; [exact Hdir|]. split; [exact Hfree|].
    destruct (proj2 (fetch_and_save_data_plain_rows
                       always_rows unused_str brk_request OUTPUT_DIR
                       (sample_world_with_dir BadText)
                       (JStr "BRK.B") (JStr "2020-01-01") (JStr "2020-12-31")
                       sample_rows eq_refl eq_refl eq_refl eq_refl)
                    eq_refl "BRK.B" sample_output_loc eq_refl
                    Hplain Hdloc Hdir Hfree)
      as (w' & Hrun & Hfile & _).
    exists w'. split; [exact Hrun | exact Hfile].
Defined.

(** C5 on [brk_request]. *)
Lemma csv_file_name_witness :
  py_getitem brk_request "ticker" = inr (JStr "BRK.B") /\
  always_rows (calls (sample_world_with_dir BadText))
              (JStr "BRK.B") (JStr "2020-01-01") (JStr "2020-12-31") = inr sample_rows /\
  empty sample_rows = false /\
  plain_name "BRK_B_2020-01-01_to_2020-12-31.csv" = true /\
  is_dir (fs (sample_world_with_dir BadText)) sample_output_loc = true /\
  is_dir (fs (sample_world_with_dir BadText)) sample_saved_loc = false /\
  exists w',
    fetch_and_save_data always_rows unused_str brk_request OUTPUT_DIR
                        (sample_world_with_dir BadText) = (Returns (), w') /\
    file_at (fs w') sample_saved_loc = Some (CsvText sample_rows).
Proof.
  assert (Hplain : plain_name "BRK_B_2020-01-01_to_2020-12-31.csv" = true)
    by (vm_compute; reflexivity).
  assert (Hdir : is_dir (fs (sample_world_with_dir BadText)) sample_output_loc = true)
    by (vm_compute; reflexivity).
  assert (Hfree : is_dir (fs (sample_world_with_dir BadText)) sample_saved_loc = false)
    by (vm_compute; reflexivity).
  split; [reflexivity|]. split; [reflexivity|]. split; [reflexivity|].
  split; [exact Hplain|]. split; [exact Hdir|]. split; [exact Hfree|].
  destruct (proj1 (csv_file_name always_rows unused_str)
                  brk_request (sample_world_with_dir BadText) "BRK.B"
                  (JStr "2020-01-01") (JStr "2020-12-31") sample_rows
                  eq_refl eq_refl eq_refl eq_refl eq_refl)
    as (w' & Hrun & _ & Hsaved).
  destruct (Hsaved Hplain Hdir Hfree) as (_ & Hfile & _).
  exists w'. split; [exact Hrun | exact Hfile].
Defined.

(** C1 on an unknown ticker followed by [brk_request], in the loop and
    through [main]. *)
Lemma fetch_error_is_isolated_witness :
  (Forall (fun r => is_fetch_request r = true) ([] ++ unknown_request :: [brk_request]) /\
   raises_then_rows (calls (sample_world_with_dir BadText) + List.length (@nil json))
                    (JStr "NOSUCH") (JStr "2020-01-01") (JStr "2020-12-31")
     = inl (ProviderError "no such ticker") /\
   exists w1 w2 w3,
     fetch_and_save_data raises_then_rows unused_str unknown_request OUTPUT_DIR w1
       = (Returns (), w2) /\
     fs w2 = fs w1 /\
     for_each ([] ++ unknown_request :: [brk_request])
              (fun r => fetch_and_save_data raises_then_rows unused_str r OUTPUT_DIR)
              (sample_world_with_dir BadText) = (Returns (), w3) /\
     calls w3 = calls w2 + 1) /\
  (open_read (fs (sample_world (JsonText (JArr [unknown_request; brk_request]))))
             DEFAULT_CONFIG = inr (JsonText (JArr [unknown_request; brk_request])) /\
   is_file (fs (sample_world (JsonText (JArr [unknown_request; brk_request]))))
           sample_output_loc = false /\
   plain_name "BRK_B_2020-01-01_to_2020-12-31.csv" = true /\
   is_dir (fs (sample_world (JsonText (JArr [unknown_request; brk_request]))))
          sample_saved_loc = false /\
   exists w',
     main raises_then_rows unused_str DEFAULT_CONFIG
          (sample_world (JsonText (JArr [unknown_request; brk_request])))
       = (Returns (), w') /\
     file_at (fs w') sample_saved_loc = Some (CsvText sample_rows) /\
     In (ERROR, FetchOrSaveFailed (JStr "NOSUCH") (ProviderError "no such ticker"))
        (log w')) /\
  ([unknown_request; brk_request] <> [] /\
   Forall (fun r => is_fetch_request r = true) [unknown_request; brk_request] /\
   exists w',
     main raises_then_rows unused_str DEFAULT_CONFIG
          (sample_world (JsonText (JArr [unknown_request; brk_request])))
       = (Returns (), w') /\
     calls w' = 2).
Proof.
  assert (Hopen : open_read
                    (fs (sample_world (JsonText (JArr [unknown_request; brk_request]))))
                    DEFAULT_CONFIG
                  = inr (JsonText (JArr [unknown_request; brk_request])))
    by (vm_compute; reflexivity).
  assert (Hnofile : is_file
                      (fs (sample_world (JsonText (JArr [unknown_request; brk_request]))))
                      sample_output_loc = false)
    by (vm_compute; reflexivity).
  split; [|split].
  - assert (Hall : Forall (fun r => is_fetch_request r = true)
                          ([] ++ unknown_request :: [brk_request]))
      by (repeat constructor).
    split; [exact Hall|]. split; [reflexivity|].
    destruct (proj1 (fetch_error_is_isolated raises_then_rows unused_str)
                    [] [brk_request] unknown_request
                    (JStr "NOSUCH") (JStr "2020-01-01") (JStr "2020-12-31")
                    (ProviderError "no such ticker")
                    (sample_world_with_dir BadText)
                    Hall eq_refl eq_refl eq_refl eq_refl)
      as (w1 & w2 & w3 & _ & Hrun & Hfs & _ & _ & Hloop & Hcalls & _).
    exists w1, w2, w3.
    split; [exact Hrun|]. split; [exact Hfs|]. split; [exact Hloop | exact Hcalls].
  - assert (Hplain : plain_name "BRK_B_2020-01-01_to_2020-12-31.csv" = true)
      by (vm_compute; reflexivity).
    assert (Hfree : is_dir
                      (fs (sample_world (JsonText (JArr [unknown_request; brk_request]))))
                      sample_saved_loc = false)
      by (vm_compute; reflexivity).
    split; [exact Hopen|]. split; [exact Hnofile|].
    split; [exact Hplain|]. split; [exact Hfree|].
    destruct (proj2 (proj2 (fetch_error_is_isolated raises_then_rows unused_str))
                    DEFAULT_CONFIG unknown_request brk_request
                    (JStr "NOSUCH") (JStr "2020-01-01") (JStr "2020-12-31")
                    "BRK.B" (JStr "2020-01-01") (JStr "2020-12-31")
                    (ProviderError "no such ticker") sample_rows
                    (sample_world (JsonText (JArr [unknown_request; brk_request])))
                    Hopen Hnofile eq_refl eq_refl eq_refl eq_refl eq_refl eq_refl
                    eq_refl eq_refl eq_refl Hplain Hfree)
      as (w' & Hrun & _ & Hfiles & Hlogged & _).
    exists w'. split; [exact Hrun|]. split; [|exact Hlogged].
    rewrite (Hfiles sample_saved_loc). reflexivity.
  - assert (Hsome : [unknown_request; brk_request] <> []) by discriminate.
    assert (Hall : Forall (fun r => is_fetch_request r = true)
                          [unknown_request; brk_request])
      by (repeat constructor).
    split; [exact Hsome|]. split; [exact Hall|].
    destruct (proj1 (proj2 (fetch_error_is_isolated raises_then_rows unused_str))
                    DEFAULT_CONFIG [unknown_request; brk_request]
                    (sample_world (JsonText (JArr [unknown_request; brk_request])))
                    Hopen Hsome Hall Hnofile)
      as (w' & Hrun & _ & Hcalls & _).
    exists w'. split; [exact Hrun | exact Hcalls].
Defined.

(** ** The further properties at work on sample inputs *)

(** X1 on a configuration file that is not JSON. *)
Lemma load_config_contains_errors_witness :
  Path_exists (fs (sample_world BadText)) DEFAULT_CONFIG = true /\
  exists lvl msg,
    load_config DEFAULT_CONFIG (sample_world BadText)
      = (Exits 1, add_log (sample_world BadText) lvl msg).
Proof.
  assert (Hfound : Path_exists (fs (sample_world BadText)) DEFAULT_CONFIG = true)
    by (vm_compute; reflexivity).
  split; [exact Hfound|].
  destruct (load_config_contains_errors DEFAULT_CONFIG (sample_world BadText) Hfound)
    as (o & lvl & msg & Hrun & _ & _ & [(-> & _)|(items & _ & _ & _ & Hopen)]).
  - exists lvl, msg. exact Hrun.
  - vm_compute in Hopen. discriminate.
Defined.

(** X2 on a working directory in which [config.json] is a directory. *)
Lemma load_config_file_errors_witness :
  open_read (fs sample_world_config_dir) DEFAULT_CONFIG = inl IsADirectoryError /\
  load_config DEFAULT_CONFIG sample_world_config_dir =
    (Exits 1, add_log sample_world_config_dir ERROR (UnexpectedError IsADirectoryError)).
Proof.
  assert (Hopen : open_read (fs sample_world_config_dir) DEFAULT_CONFIG
                  = inl IsADirectoryError)
    by (vm_compute; reflexivity).
  split; [exact Hopen|].
  exact (proj1 (proj2 (load_config_file_errors DEFAULT_CONFIG sample_world_config_dir))
               Hopen).
Defined.

(** X3 on a configuration whose second element lacks [end_date]. *)
Lemma load_config_first_bad_item_witness :
  open_read (fs (sample_world (JsonText
               (JArr ([brk_request] ++ partial_request :: [unknown_request])))))
            DEFAULT_CONFIG
    = inr (JsonText (JArr ([brk_request] ++ partial_request :: [unknown_request]))) /\
  Forall accepted [brk_request] /\
  all_keys_in REQUIRED_KEYS partial_request = inr false /\
  load_config DEFAULT_CONFIG
    (sample_world (JsonText
       (JArr ([brk_request] ++ partial_request :: [unknown_request])))) =
    (Exits 1,
     add_log (sample_world (JsonText
                (JArr ([brk_request] ++ partial_request :: [unknown_request]))))
             ERROR (InvalidConfiguration (ValueError (InvalidItem partial_request)))).
Proof.
  assert (Hopen : open_read (fs (sample_world (JsonText
                     (JArr ([brk_request] ++ partial_request :: [unknown_request])))))
                    DEFAULT_CONFIG
            = inr (JsonText (JArr ([brk_request] ++ partial_request :: [unknown_request]))))
    by (vm_compute; reflexivity).
  assert (Hgood : Forall accepted [brk_request]) by (repeat constructor).
  assert (Hbad : all_keys_in REQUIRED_KEYS partial_request = inr false)
    by reflexivity.
  split; [exact Hopen|]. split; [exact Hgood|]. split; [exact Hbad|].
  exact (proj1 (load_config_first_bad_item DEFAULT_CONFIG _ [brk_request]
                  [unknown_request] partial_request Hopen Hgood) Hbad).
Defined.

(** X4 on an object without [end_date]. *)
Lemma fetch_and_save_data_needs_request_witness :
  is_fetch_request partial_request = false /\
  exists e,
    fetch_and_save_data always_rows unused_str partial_request OUTPUT_DIR
                        (sample_world_with_dir BadText)
      = (Raises e, sample_world_with_dir BadText).
Proof.
  assert (Hbad : is_fetch_request partial_request = false) by reflexivity.
  split; [exact Hbad|].
  destruct (proj2 (fetch_and_save_data_needs_request always_rows unused_str
                     partial_request OUTPUT_DIR (sample_world_with_dir BadText)) Hbad)
    as (e & Hrun & _).
  exists e. exact Hrun.
Defined.

(** X5 on a request, then a string, then another request. *)
Lemma for_each_stops_at_bad_item_witness :
  Forall (fun r => is_fetch_request r = true) [brk_request] /\
  is_fetch_request string_item = false /\
  exists e w1,
    for_each ([brk_request] ++ string_item :: [unknown_request])
             (fun r => fetch_and_save_data always_rows unused_str r OUTPUT_DIR)
             (sample_world_with_dir BadText) = (Raises e, w1) /\
    calls w1 = 1.
Proof.
  assert (Hbefore : Forall (fun r => is_fetch_request r = true) [brk_request])
    by (repeat constructor).
  assert (Hbad : is_fetch_request string_item = false) by reflexivity.
  split; [exact Hbefore|]. split; [exact Hbad|].
  destruct (for_each_stops_at_bad_item always_rows unused_str
              [brk_request] [unknown_request] string_item
              (sample_world_with_dir BadText) Hbefore Hbad)
    as (e & w1 & _ & Hrun & Hcalls & _).
  exists e, w1. split; [exact Hrun | exact Hcalls].
Defined.

(** X6 on a configuration with one good request. *)
Lemma main_exit_status_witness :
  open_read (fs (sample_world (JsonText (JArr [brk_request])))) DEFAULT_CONFIG
    = inr (JsonText (JArr [brk_request])) /\
  json_load (JsonText (JArr [brk_request])) = inr (JArr [brk_request]) /\
  Forall (fun r => is_fetch_request r = true) [brk_request] /\
  is_file (fs (sample_world (JsonText (JArr [brk_request])))) sample_output_loc = false /\
  exit_status (main raises_then_rows unused_str DEFAULT_CONFIG
                    (sample_world (JsonText (JArr [brk_request])))).1 = 0%Z.
Proof.
  assert (Hopen : open_read (fs (sample_world (JsonText (JArr [brk_request]))))
                            DEFAULT_CONFIG = inr (JsonText (JArr [brk_request])))
    by (vm_compute; reflexivity).
  assert (Hall : Forall (fun r => is_fetch_request r = true) [brk_request])
    by (repeat constructor).
  assert (Hfile : is_file (fs (sample_world (JsonText (JArr [brk_request]))))
                          sample_output_loc = false)
    by (vm_compute; reflexivity).
  split; [exact Hopen|]. split; [reflexivity|].
  split; [exact Hall|]. split; [exact Hfile|].
  apply (proj2 (main_exit_status raises_then_rows unused_str DEFAULT_CONFIG
                  (sample_world (JsonText (JArr [brk_request]))))).
  exists (JsonText (JArr [brk_request])), [brk_request].
  split; [exact Hopen|]. split; [reflexivity|]. split; [exact Hall | exact Hfile].
Defined.

(** X7 on [brk_request] with a provider that has rows. *)
Lemma fetch_and_save_data_last_line_witness :
  is_fetch_request brk_request = true /\
  exists w' last,
    fetch_and_save_data always_rows unused_str brk_request OUTPUT_DIR
                        (sample_world_with_dir BadText) = (Returns (), w') /\
    List.last (log w') (INFO, NoRequests) = last.
Proof.
  assert (Hreq : is_fetch_request brk_request = true) by reflexivity.
  split; [exact Hreq|].
  destruct (fetch_and_save_data_last_line always_rows unused_str brk_request
              OUTPUT_DIR (sample_world_with_dir BadText) Hreq)
    as (w' & ticker & start & end_ & between & last & _ & _ & _ & Hrun & Hlog & _).
  exists w', last. split; [exact Hrun|].
  rewrite Hlog.
  change ((INFO, Fetching ticker start end_) :: between ++ [last])
    with (((INFO, Fetching ticker start end_) :: between) ++ [last]).
  rewrite app_assoc. apply last_last.
Defined.

(** X8 on [brk_request] in a working directory without [historical_data]. *)
Lemma fetch_and_save_data_needs_directory_witness :
  always_rows (calls (sample_world BadText))
              (JStr "BRK.B") (JStr "2020-01-01") (JStr "2020-12-31") = inr sample_rows /\
  empty sample_rows = false /\
  has_char slash (csv_name unused_str (str_replace dot underscore "BRK.B")
                           (JStr "2020-01-01") (JStr "2020-12-31")) = false /\
  is_dir (fs (sample_world BadText)) sample_output_loc = false /\
  fs (fetch_and_save_data always_rows unused_str brk_request OUTPUT_DIR
                          (sample_world BadText)).2 = fs (sample_world BadText).
Proof.
  assert (Hslash : has_char slash
                     (csv_name unused_str (str_replace dot underscore "BRK.B")
                               (JStr "2020-01-01") (JStr "2020-12-31")) = false)
    by (vm_compute; reflexivity).
  assert (Hnodir : forall dloc,
             locate (fs (sample_world BadText)) OUTPUT_DIR = inr dloc ->
             is_dir (fs (sample_world BadText)) dloc = false).
  { intros dloc Hloc. vm_compute in Hloc. injection Hloc as <-.
    vm_compute. reflexivity. }
  split; [reflexivity|]. split; [reflexivity|]. split; [exact Hslash|].
  split; [vm_compute; reflexivity|].
  exact (proj2 (fetch_and_save_data_needs_directory always_rows unused_str
                  brk_request OUTPUT_DIR (sample_world BadText) "BRK.B"
                  (JStr "2020-01-01") (JStr "2020-12-31") sample_rows
                  eq_refl eq_refl eq_refl eq_refl eq_refl Hslash Hnodir)).
Defined.

(** X9 on a working directory in which [historical_data] is a file. *)
Lemma main_output_dir_blocked_witness :
  open_read (fs (sample_world_blocked (JsonText (JArr [brk_request])))) DEFAULT_CONFIG
    = inr (JsonText (JArr [brk_request])) /\
  Forall accepted [brk_request] /\
  is_file (fs (sample_world_blocked (JsonText (JArr [brk_request]))))
          sample_output_loc = true /\
  exit_status (main always_rows unused_str DEFAULT_CONFIG
                    (sample_world_blocked (JsonText (JArr [brk_request])))).1 = 1%Z /\
  calls (main always_rows unused_str DEFAULT_CONFIG
              (sample_world_blocked (JsonText (JArr [brk_request])))).2 = 0.
Proof.
  assert (Hopen : open_read (fs (sample_world_blocked (JsonText (JArr [brk_request]))))
                            DEFAULT_CONFIG = inr (JsonText (JArr [brk_request])))
    by (vm_compute; reflexivity).
  assert (Hacc : Forall accepted [brk_request]) by (repeat constructor).
  assert (Hfile : is_file (fs (sample_world_blocked (JsonText (JArr [brk_request]))))
                          sample_output_loc = true)
    by (vm_compute; reflexivity).
  split; [exact Hopen|]. split; [exact Hacc|]. split; [exact Hfile|].
  destruct (main_output_dir_blocked always_rows unused_str DEFAULT_CONFIG
              (sample_world_blocked (JsonText (JArr [brk_request]))) [brk_request]
              Hopen Hacc Hfile)
    as (Hrun & _ & Hcalls).
  split; [rewrite Hrun; reflexivity | exact Hcalls].
Defined.

(** X11 on [brk_request] listed twice, the provider returning other rows
    the second time. *)
Lemma same_name_overwrites_witness :
  changing_rows (calls (sample_world_with_dir BadText))
                (JStr "BRK.B") (JStr "2020-01-01") (JStr "2020-12-31") = inr sample_rows /\
  changing_rows (S (calls (sample_world_with_dir BadText)))
                (JStr "BRK.B") (JStr "2020-01-01") (JStr "2020-12-31") = inr other_rows /\
  plain_name "BRK_B_2020-01-01_to_2020-12-31.csv" = true /\
  is_dir (fs (sample_world_with_dir BadText)) sample_output_loc = true /\
  is_dir (fs (sample_world_with_dir BadText)) sample_saved_loc = false /\
  exists w',
    for_each [brk_request; brk_request]
             (fun r => fetch_and_save_data changing_rows unused_str r OUTPUT_DIR)
             (sample_world_with_dir BadText) = (Returns (), w') /\
    file_at (fs w') sample_saved_loc = Some (CsvText other_rows).
Proof.
  assert (Hplain : plain_name "BRK_B_2020-01-01_to_2020-12-31.csv" = true)
    by (vm_compute; reflexivity).
  assert (Hdir : is_dir (fs (sample_world_with_dir BadText)) sample_output_loc = true)
    by (vm_compute; reflexivity).
  assert (Hfree : is_dir (fs (sample_world_with_dir BadText)) sample_saved_loc = false)
    by (vm_compute; reflexivity).
  split; [reflexivity|]. split; [reflexivity|]. split; [exact Hplain|].
  split; [exact Hdir|]. split; [exact Hfree|].
  destruct (same_name_overwrites changing_rows unused_str brk_request brk_request
              (sample_world_with_dir BadText) "BRK.B" "BRK.B"
              (JStr "2020-01-01") (JStr "2020-12-31")
              (JStr "2020-01-01") (JStr "2020-12-31") sample_rows other_rows
              eq_refl eq_refl eq_refl eq_refl eq_refl eq_refl
              eq_refl eq_refl eq_refl eq_refl eq_refl Hplain Hdir Hfree)
    as (w' & Hrun & _ & Hfile).
  exists w'. split; [exact Hrun | exact Hfile].
Defined.

(** X12 on the ticker [BRK.B]. *)
Lemma sanitized_names_collide_witness :
  has_char dot "BRK.B" = true /\
  str_replace dot underscore "BRK.B" <> "BRK.B" /\
  csv_name unused_str (str_replace dot underscore (str_replace dot underscore "BRK.B"))
           (JStr "2020-01-01") (JStr "2020-12-31")
    = csv_name unused_str (str_replace dot underscore "BRK.B")
               (JStr "2020-01-01") (JStr "2020-12-31").
Proof.
  assert (Hdot : has_char dot "BRK.B" = true) by reflexivity.
  split; [exact Hdot|].
  exact (proj2 (proj2 (sanitized_names_collide unused_str "BRK.B"
                         (JStr "2020-01-01") (JStr "2020-12-31"))) Hdot).
Defined.

(** X14 on the configuration file itself, after a run that saved a file. *)
Lemma main_frame_witness :
  ["home"; "user"; "config.json"]
    <> output_loc (fs (sample_world (JsonText (JArr [brk_request])))) /\
  (forall dir stem,
      ["home"; "user"; "config.json"] <> dir ++ [(stem ++ ".csv")%string]) /\
  fs_lookup (fs (main always_rows unused_str DEFAULT_CONFIG
                      (sample_world (JsonText (JArr [brk_request])))).2)
            ["home"; "user"; "config.json"]
    = fs_lookup (fs (sample_world (JsonText (JArr [brk_request]))))
                ["home"; "user"; "config.json"].
Proof.
  assert (Hout : ["home"; "user"; "config.json"]
                 <> output_loc (fs (sample_world (JsonText (JArr [brk_request])))))
    by discriminate.
  assert (Hcsv : forall dir stem,
             ["home"; "user"; "config.json"] <> dir ++ [(stem ++ ".csv")%string]).
  { intros dir stem Heq.
    apply (f_equal (fun l => List.last l EmptyString)) in Heq.
    rewrite last_last in Heq. cbn [List.last] in Heq.
    do 12 (destruct stem as [|? stem]; [cbv in Heq; discriminate|]).
    cbv in Heq. discriminate. }
  split; [exact Hout|]. split; [exact Hcsv|].
  exact (main_frame always_rows unused_str DEFAULT_CONFIG
           (sample_world (JsonText (JArr [brk_request])))
           ["home"; "user"; "config.json"] Hout Hcsv).
Defined.

(** X16 on a provider that never has rows. *)
Lemma main_without_rows_witness :
  (forall n ticker start end_ df,
      never_rows n ticker start end_ = inr df -> empty df = true) /\
  is_dir (fs (sample_world_with_dir (JsonText (JArr [brk_request]))))
         sample_output_loc = true /\
  fs (main never_rows unused_str DEFAULT_CONFIG
           (sample_world_with_dir (JsonText (JArr [brk_request])))).2
    = fs (sample_world_with_dir (JsonText (JArr [brk_request]))).
Proof.
  assert (Hnone : forall n ticker start end_ df,
             never_rows n ticker start end_ = inr df -> empty df = true).
  { intros n ticker start end_ df Hdf. injection Hdf as <-. reflexivity. }
  assert (Hdir : is_dir (fs (sample_world_with_dir (JsonText (JArr [brk_request]))))
                        sample_output_loc = true)
    by (vm_compute; reflexivity).
  split; [exact Hnone|]. split; [exact Hdir|].
  exact (proj2 (main_without_rows never_rows unused_str DEFAULT_CONFIG
                  (sample_world_with_dir (JsonText (JArr [brk_request]))) Hnone)
               Hdir).
Defined.
